(** * AI Financial Coach (app.py): derived metrics, feature vector, nudges, priority

    A shallow embedding of the deterministic part of [app.py]: the derived
    metrics block (lines 62-74), the assembly of [user_data] and [input_df]
    (lines 77-103), [generate_nudges] (lines 114-139) and
    [classify_nudge_priority] (lines 141-151).

    Python floats are IEEE binary64 numbers and are modelled by Rocq's
    primitive floats; Python strings are modelled by their UTF-8 bytes (a
    substring test on code points and on UTF-8 bytes agree); the dictionary
    [user_data] is a finite map from strings to Python values.  The builtin
    [sum] rounds differently before and from CPython 3.12; the program is
    modelled on both, and its properties are proved for both. *)

From Stdlib Require Import ZArith String List Bool Lia Floats Sorted.
From stdpp Require Import base option list gmap strings.
Import ListNotations.

Set Warnings "-inexact-float".

(** ** The Python fragment used by the program *)

Module Py.

(** An exception: its class name and its argument. *)
Record exn : Type := Exn { exn_class : string; exn_arg : string }.

Definition ZeroDivisionError : exn := Exn "ZeroDivisionError" "float division by zero".
Definition KeyError (key : string) : exn := Exn "KeyError" key.

(** A computation either returns or raises. *)
Inductive result (A : Type) : Type :=
| Ok (a : A)
| Raise (e : exn).
Arguments Ok {A} a.
Arguments Raise {A} e.

Definition bind {A B : Type} (c : result A) (k : A -> result B) : result B :=
  match c with
  | Ok a => k a
  | Raise e => Raise e
  end.

(** The values stored in [user_data]: floats, ints and bools. *)
Inductive value : Type :=
| VFloat (f : float)
| VInt (z : Z)
| VBool (b : bool).

(** Python compares an int with a float exactly (no rounding of the int). *)
Definition Z_compare_float (z : Z) (c : float) : option comparison :=
  match Prim2SF c with
  | S754_nan => None
  | S754_infinity s => Some (if s then Gt else Lt)
  | S754_zero _ => Some (z ?= 0)%Z
  | S754_finite s m e =>
      let mz := if s then Zneg m else Zpos m in
      Some (if (0 <=? e)%Z then (z ?= mz * 2 ^ e)%Z
            else (z * 2 ^ (- e) ?= mz)%Z)
  end.

Definition int_of_value (v : value) : option Z :=
  match v with
  | VFloat _ => None
  | VInt z => Some z
  | VBool b => Some (if b then 1 else 0)%Z
  end.

(** [v > c] for a float constant [c]. *)
Definition value_gt (v : value) (c : float) : bool :=
  match v with
  | VFloat f => (c <? f)%float
  | _ => match int_of_value v with
         | Some z => match Z_compare_float z c with Some Gt => true | _ => false end
         | None => false
         end
  end.

(** [v < c] for a float constant [c]. *)
Definition value_lt (v : value) (c : float) : bool :=
  match v with
  | VFloat f => (f <? c)%float
  | _ => match int_of_value v with
         | Some z => match Z_compare_float z c with Some Lt => true | _ => false end
         | None => false
         end
  end.

(** [a / b] on floats raises on a zero divisor (of either sign). *)
Definition float_div (a b : float) : result float :=
  if (b =? 0)%float then Raise ZeroDivisionError else Ok (a / b)%float.

(** The builtin [sum] on a list of floats has two algorithms: CPython up to
    3.11 adds from left to right; CPython 3.12 and later also carry Neumaier's
    compensation. *)
Inductive sum_algorithm : Type :=
| PlainFold
| Compensated.

(** Up to 3.11: from the start value 0, each step one IEEE addition. *)
Definition sum_plain (l : list float) : float :=
  fold_left PrimFloat.add l 0%float.

(** From 3.12, one step of the float loop on the running total [f] and the
    compensation [c]:
    [t = f + x; if fabs(f) >= fabs(x): c += (f - t) + x; else: c += (x - t) + f; f = t]. *)
Definition compensated_step (acc : float * float) (x : float) : float * float :=
  let t := (acc.1 + x)%float in
  if (abs x <=? abs acc.1)%float
  then (t, (acc.2 + ((acc.1 - t) + x))%float)
  else (t, (acc.2 + ((x - t) + acc.1))%float).

(** From 3.12: the first item is added to the start value 0, the others go
    through the loop, and at the end the compensation is added when it is
    neither zero nor infinite nor NaN. *)
Definition sum_compensated (l : list float) : float :=
  match l with
  | [] => 0%float
  | x :: rest =>
      let acc := fold_left compensated_step rest ((0 + x)%float, 0%float) in
      if negb (acc.2 =? 0)%float && is_finite acc.2
      then (acc.1 + acc.2)%float
      else acc.1
  end.

Definition sum (algorithm : sum_algorithm) (l : list float) : float :=
  match algorithm with
  | PlainFold => sum_plain l
  | Compensated => sum_compensated l
  end.

(** [sub in s] on strings. *)
Fixpoint contains (sub s : string) : bool :=
  String.prefix sub s ||
  match s with
  | EmptyString => false
  | String _ s' => contains sub s'
  end.

(** [row[key]] on a dict. *)
Definition getitem (row : gmap string value) (key : string) : result value :=
  match row !! key with
  | Some v => Ok v
  | None => Raise (KeyError key)
  end.

(** A dict display [{k1: v1, ..., kn: vn}]: later entries win. *)
Definition dict_of (kvs : list (string * value)) : gmap string value :=
  fold_left (fun d kv => <[kv.1 := kv.2]> d) kvs ∅.

End Py.
Import Py.

#[global] Instance result_bind : MBind Py.result :=
  fun A B k c => Py.bind c k.
#[global] Instance result_ret : MRet Py.result := @Py.Ok.

(** ** The inputs of one evaluation (lines 30-59)

    [st.number_input] with float bounds returns a float, [st.slider] with int
    bounds an int, [st.selectbox] one of its option strings. *)

Record RawInputs : Type := {
  income : float;
  age : Z;
  dependents : Z;
  occupation : string;
  city_tier : string;
  desired_savings : float;
  actual_savings : float;
  rent : float;
  loan_repay : float;
  insurance : float;
  groceries : float;
  transport : float;
  utilities : float;
  healthcare : float;
  education : float;
  eating_out : float;
  entertainment : float;
  misc : float
}.

(** ** Derived metrics (lines 62-74)

    The three category dicts keep their insertion order, which is the order
    in which [sum] adds their values. *)

Definition fixed (r : RawInputs) : list (string * float) :=
  [("Rent", rent r); ("Loan_Repayment", loan_repay r); ("Insurance", insurance r)].

Definition essential (r : RawInputs) : list (string * float) :=
  [("Groceries", groceries r); ("Transport", transport r); ("Utilities", utilities r);
   ("Healthcare", healthcare r); ("Education", education r)].

Definition discretionary (r : RawInputs) : list (string * float) :=
  [("Eating_Out", eating_out r); ("Entertainment", entertainment r);
   ("Miscellaneous", misc r)].

Definition values (d : list (string * float)) : list float := map snd d.

(** The variables the block binds. *)
Record DerivedMetrics : Type := {
  total_expenses : float;
  discretionary_spend : float;
  discretionary_to_income : float;
  disposable_utilization : float;
  savings_vs_desired : float;
  rent_to_income : float;
  loan_to_income : float;
  overspending_alert : bool;
  savings_rate : float
}.

(** The block calls the builtin [sum], so what it computes depends on the
    interpreter.  From here to the end of the section [py] is the algorithm of
    the interpreter the script runs on; every statement holds for both. *)

Section Interpreter.

Variable py : Py.sum_algorithm.

Definition derive_metrics (r : RawInputs) : result DerivedMetrics :=
  let total_expenses :=
    (Py.sum py (values (fixed r)) + Py.sum py (values (essential r))
     + Py.sum py (values (discretionary r)))%float in
  let discretionary_spend := Py.sum py (values (discretionary r)) in
  discretionary_to_income ← float_div discretionary_spend (income r);
  disposable_utilization ← float_div total_expenses (income r);
  savings_vs_desired ← float_div (actual_savings r - desired_savings r)%float (income r);
  rent_to_income ← float_div (rent r) (income r);
  loan_to_income ← float_div (loan_repay r) (income r);
  let overspending_alert := (1.0 <? disposable_utilization)%float in
  savings_rate ← float_div (actual_savings r) (income r);
  mret {| total_expenses := total_expenses;
          discretionary_spend := discretionary_spend;
          discretionary_to_income := discretionary_to_income;
          disposable_utilization := disposable_utilization;
          savings_vs_desired := savings_vs_desired;
          rent_to_income := rent_to_income;
          loan_to_income := loan_to_income;
          overspending_alert := overspending_alert;
          savings_rate := savings_rate |}.

(** ** Assembling [user_data] and [input_df] (lines 77-103) *)

(** [**d] inside a dict display. *)
Definition unpack (d : list (string * float)) : list (string * value) :=
  map (fun kv => (kv.1, VFloat kv.2)) d.

(** The dict display of lines 77-92. *)
Definition user_data_display (r : RawInputs) (m : DerivedMetrics) : gmap string value :=
  dict_of ([("Income", VFloat (income r));
            ("Age", VInt (age r));
            ("Dependents", VInt (dependents r));
            ("Desired_Savings", VFloat (desired_savings r));
            ("Actual_Savings", VFloat (actual_savings r));
            ("Total_Expenses", VFloat (total_expenses m));
            ("Disposable_Utilization", VFloat (disposable_utilization m));
            ("Discretionary_to_Income", VFloat (discretionary_to_income m));
            ("Savings_vs_Desired", VFloat (savings_vs_desired m));
            ("Rent_to_Income", VFloat (rent_to_income m));
            ("Loan_to_Income", VFloat (loan_to_income m));
            ("Overspending_Alert", VBool (overspending_alert m));
            ("Savings_Rate", VFloat (savings_rate m))]
           ++ unpack (fixed r) ++ unpack (essential r) ++ unpack (discretionary r)).

(** One loop of lines 95-98: [user_data[prefix + val] = 1 if choice == val else 0]. *)
Definition one_hot (prefix choice : string) (vals : list string)
    (user_data : gmap string value) : gmap string value :=
  fold_left
    (fun d val => <[prefix +:+ val := VInt (if String.eqb choice val then 1 else 0)]> d)
    vals user_data.

(** Lines 99-101: every schema column that is not a key yet gets 0. *)
Definition fill_missing (feature_cols : list string)
    (user_data : gmap string value) : gmap string value :=
  fold_left
    (fun d col => match d !! col with
                  | Some _ => d
                  | None => <[col := VInt 0]> d
                  end)
    feature_cols user_data.

Definition occupations : list string := ["Employed"; "Self_Employed"; "Student"; "Retired"].
Definition city_tiers : list string := ["Tier_1"; "Tier_2"; "Tier_3"].

(** [user_data] as it stands after line 98. *)
Definition user_data_encoded (r : RawInputs) (m : DerivedMetrics) : gmap string value :=
  one_hot "City_Tier_" (city_tier r) city_tiers
    (one_hot "Occupation_" (occupation r) occupations
       (user_data_display r m)).

(** [user_data] as it stands after line 101. *)
Definition user_data (r : RawInputs) (feature_cols : list string)
    : result (gmap string value) :=
  m ← derive_metrics r;
  mret (fill_missing feature_cols (user_data_encoded r m)).

(** [pd.DataFrame([d])[cols]]: the one-row frame restricted to the columns
    [cols], in the order of [cols]; a column that is not a key raises. *)
Fixpoint select_columns (cols : list string) (d : gmap string value)
    : result (list (string * value)) :=
  match cols with
  | [] => mret []
  | col :: cols' =>
      v ← getitem d col;
      rest ← select_columns cols' d;
      mret ((col, v) :: rest)
  end.

Definition input_df (r : RawInputs) (feature_cols : list string)
    : result (list (string * value)) :=
  d ← user_data r feature_cols;
  select_columns feature_cols d.

(** ** The messages of the rule set (the string literals of lines 118-138) *)

Definition msg_overspending_high : string :=
  "❌ You’ve overspent this month. Consider cutting expenses.".
Definition msg_overspending_medium : string :=
  "⚠️ Close to overspending. Monitor your expenses.".
Definition msg_savings_high : string :=
  "💰 You are significantly below your savings goal.".
Definition msg_savings_medium : string :=
  "💰 Below your savings target. Consider increasing savings.".
Definition msg_discretionary_high : string :=
  "🛍️ Very high discretionary spending.".
Definition msg_discretionary_medium : string :=
  "🛍️ Consider reducing discretionary expenses.".
Definition msg_rent_high : string :=
  "🏠 Rent is too high relative to your income.".
Definition msg_rent_medium : string :=
  "🏠 Consider lowering your housing costs.".
Definition msg_loan : string :=
  "📉 High loan repayment burden detected.".

(** ** [generate_nudges] (lines 114-139)

    [nudges] is the list under construction; [nudges.append(m)] is
    [nudges ++ [m]].  Every [row[...]] may raise [KeyError]. *)

Definition generate_nudges (row : gmap string value) : result (list string) :=
  let nudges : list string := [] in
  (* Overspending alert *)
  nudges ←
    (v ← getitem row "Disposable_Utilization";
     if value_gt v 1.0 then mret (nudges ++ [msg_overspending_high])
     else
       v ← getitem row "Disposable_Utilization";
       if value_gt v 0.85 then mret (nudges ++ [msg_overspending_medium])
       else mret nudges);
  (* Savings gap *)
  nudges ←
    (v ← getitem row "Savings_vs_Desired";
     if value_lt v (-0.1) then mret (nudges ++ [msg_savings_high])
     else
       v ← getitem row "Savings_vs_Desired";
       if value_lt v (-0.05) then mret (nudges ++ [msg_savings_medium])
       else mret nudges);
  (* High discretionary spending *)
  nudges ←
    (v ← getitem row "Discretionary_to_Income";
     if value_gt v 0.35 then mret (nudges ++ [msg_discretionary_high])
     else
       v ← getitem row "Discretionary_to_Income";
       if value_gt v 0.25 then mret (nudges ++ [msg_discretionary_medium])
       else mret nudges);
  (* Rent burden *)
  nudges ←
    (v ← getitem row "Rent_to_Income";
     if value_gt v 0.4 then mret (nudges ++ [msg_rent_high])
     else
       v ← getitem row "Rent_to_Income";
       if value_gt v 0.3 then mret (nudges ++ [msg_rent_medium])
       else mret nudges);
  (* Loan burden *)
  nudges ←
    (v ← getitem row "Loan_to_Income";
     if value_gt v 0.3 then mret (nudges ++ [msg_loan])
     else mret nudges);
  mret nudges.

(** ** [classify_nudge_priority] (lines 141-151) *)

Definition classify_nudge_priority (nudges : list string) : string :=
  let high :=
    existsb (fun n => contains "❌" n
                      || contains "💰 You are significantly" n
                      || contains "🏠 Rent is too high" n) nudges in
  let medium :=
    existsb (fun n => contains "⚠️" n
                      || contains "💰 Below your savings" n
                      || contains "🛍️ Very high" n) nudges in
  if high then "High"
  else if medium || (3 <=? length nudges) then "Medium"
  else if negb (length nudges =? 0) then "Low"
  else "None".

(** ** Lines 163-164: the nudges of a row and their priority *)

Definition nudge_priority (row : gmap string value) : result (list string * string) :=
  nudges ← generate_nudges row;
  mret (nudges, classify_nudge_priority nudges).

Definition evaluate (r : RawInputs) (feature_cols : list string)
    : result (list string * string) :=
  d ← user_data r feature_cols;
  nudge_priority d.

(** ** Vocabulary of the statements *)

(** The five keys [generate_nudges] reads. *)
Definition ratio_keys : list string :=
  ["Disposable_Utilization"; "Savings_vs_Desired"; "Discretionary_to_Income";
   "Rent_to_Income"; "Loan_to_Income"].

(** A row on which no [row[...]] of [generate_nudges] raises. *)
Definition has_metrics (row : gmap string value) : Prop :=
  Forall (fun key => is_Some (row !! key)) ratio_keys.

(** [row[key] > c] and [row[key] < c] as tests on a row. *)
Definition exceeds (row : gmap string value) (key : string) (c : float) : bool :=
  match row !! key with
  | Some v => value_gt v c
  | None => false
  end.

Definition falls_below (row : gmap string value) (key : string) (c : float) : bool :=
  match row !! key with
  | Some v => value_lt v c
  | None => false
  end.

(** A rule category fires when one of its thresholds is passed. *)
Definition overspending_fires (row : gmap string value) : bool :=
  exceeds row "Disposable_Utilization" 1.0 || exceeds row "Disposable_Utilization" 0.85.
Definition savings_gap_fires (row : gmap string value) : bool :=
  falls_below row "Savings_vs_Desired" (-0.1) || falls_below row "Savings_vs_Desired" (-0.05).
Definition discretionary_fires (row : gmap string value) : bool :=
  exceeds row "Discretionary_to_Income" 0.35 || exceeds row "Discretionary_to_Income" 0.25.
Definition rent_burden_fires (row : gmap string value) : bool :=
  exceeds row "Rent_to_Income" 0.4 || exceeds row "Rent_to_Income" 0.3.
Definition loan_burden_fires (row : gmap string value) : bool :=
  exceeds row "Loan_to_Income" 0.3.

(** The eleven expense amounts, in the order in which they are added. *)
Definition expense_amounts (r : RawInputs) : list float :=
  values (fixed r) ++ values (essential r) ++ values (discretionary r).

(** The keys of [user_data] after line 98: raw inputs, derived metrics,
    category amounts and one-hot encodings. *)
Definition populated_keys : list string :=
  ["Income"; "Age"; "Dependents"; "Desired_Savings"; "Actual_Savings";
   "Total_Expenses"; "Disposable_Utilization"; "Discretionary_to_Income";
   "Savings_vs_Desired"; "Rent_to_Income"; "Loan_to_Income";
   "Overspending_Alert"; "Savings_Rate";
   "Rent"; "Loan_Repayment"; "Insurance";
   "Groceries"; "Transport"; "Utilities"; "Healthcare"; "Education";
   "Eating_Out"; "Entertainment"; "Miscellaneous";
   "Occupation_Employed"; "Occupation_Self_Employed"; "Occupation_Student";
   "Occupation_Retired";
   "City_Tier_Tier_1"; "City_Tier_Tier_2"; "City_Tier_Tier_3"].

(** The rule categories, in evaluation order, and the category of a message. *)
Inductive category : Type :=
| Overspending | SavingsGap | Discretionary | RentBurden | LoanBurden.

Definition category_rank (c : category) : nat :=
  match c with
  | Overspending => 0
  | SavingsGap => 1
  | Discretionary => 2
  | RentBurden => 3
  | LoanBurden => 4
  end.

Definition rule_messages : list (string * category) :=
  [(msg_overspending_high, Overspending); (msg_overspending_medium, Overspending);
   (msg_savings_high, SavingsGap); (msg_savings_medium, SavingsGap);
   (msg_discretionary_high, Discretionary); (msg_discretionary_medium, Discretionary);
   (msg_rent_high, RentBurden); (msg_rent_medium, RentBurden);
   (msg_loan, LoanBurden)].

Fixpoint assoc (m : string) (table : list (string * category)) : option category :=
  match table with
  | [] => None
  | (m', c) :: table' => if String.eqb m m' then Some c else assoc m table'
  end.

Definition message_category (m : string) : option category := assoc m rule_messages.

(** What one two-tier [if]/[elif] and the one-tier [if] contribute. *)
Definition two_tier (high medium : bool) (msg_high msg_medium : string) : list string :=
  if high then [msg_high] else if medium then [msg_medium] else [].

Definition one_tier (high : bool) (msg : string) : list string :=
  if high then [msg] else [].

Definition nudges_of (row : gmap string value) : list string :=
  two_tier (exceeds row "Disposable_Utilization" 1.0)
           (exceeds row "Disposable_Utilization" 0.85)
           msg_overspending_high msg_overspending_medium
  ++ two_tier (falls_below row "Savings_vs_Desired" (-0.1))
              (falls_below row "Savings_vs_Desired" (-0.05))
              msg_savings_high msg_savings_medium
  ++ two_tier (exceeds row "Discretionary_to_Income" 0.35)
              (exceeds row "Discretionary_to_Income" 0.25)
              msg_discretionary_high msg_discretionary_medium
  ++ two_tier (exceeds row "Rent_to_Income" 0.4)
              (exceeds row "Rent_to_Income" 0.3)
              msg_rent_high msg_rent_medium
  ++ one_tier (exceeds row "Loan_to_Income" 0.3) msg_loan.

(** Membership of a message in a list, as a test. *)
Definition present (m : string) (l : list string) : bool := existsb (String.eqb m) l.

(** The two substring scans of [classify_nudge_priority]. *)
Definition high_scan (n : string) : bool :=
  contains "❌" n || contains "💰 You are significantly" n
  || contains "🏠 Rent is too high" n.
Definition medium_scan (n : string) : bool :=
  contains "⚠️" n || contains "💰 Below your savings" n
  || contains "🛍️ Very high" n.

(** One [row[k]] of [generate_nudges] in a hypothesis [H]: the key is there,
    and the tests on its value are split. *)
Ltac need_key H row k :=
  destruct (row !! k) eqn:?; cbn in H; [|discriminate];
  repeat match type of H with
         | context [if ?b then _ else _] => destruct b; cbn in H
         end.

(** ** Sample evaluations *)

(** A form with every expense at 0: income 5000, savings goal 1000, savings 2000. *)
Definition raw_idle : RawInputs :=
  {| income := 5000; age := 30; dependents := 1;
     occupation := "Employed"; city_tier := "Tier_1";
     desired_savings := 1000; actual_savings := 2000;
     rent := 0; loan_repay := 0; insurance := 0;
     groceries := 0; transport := 0; utilities := 0; healthcare := 0; education := 0;
     eating_out := 0; entertainment := 0; misc := 0 |}.

Definition with_income (x : float) (r : RawInputs) : RawInputs :=
  {| income := x; age := age r; dependents := dependents r;
     occupation := occupation r; city_tier := city_tier r;
     desired_savings := desired_savings r; actual_savings := actual_savings r;
     rent := rent r; loan_repay := loan_repay r; insurance := insurance r;
     groceries := groceries r; transport := transport r; utilities := utilities r;
     healthcare := healthcare r; education := education r;
     eating_out := eating_out r; entertainment := entertainment r; misc := misc r |}.

(** Discretionary spending of 0.30 of the income, nothing else. *)
Definition raw_discretionary : RawInputs :=
  {| income := 5000; age := 30; dependents := 1;
     occupation := "Employed"; city_tier := "Tier_1";
     desired_savings := 1000; actual_savings := 2000;
     rent := 0; loan_repay := 0; insurance := 0;
     groceries := 0; transport := 0; utilities := 0; healthcare := 0; education := 0;
     eating_out := 1500; entertainment := 0; misc := 0 |}.

(** A loan repayment of 0.40 of the income, nothing else. *)
Definition raw_loan : RawInputs :=
  {| income := 5000; age := 41; dependents := 2;
     occupation := "Self_Employed"; city_tier := "Tier_2";
     desired_savings := 1000; actual_savings := 2000;
     rent := 0; loan_repay := 2000; insurance := 0;
     groceries := 0; transport := 0; utilities := 0; healthcare := 0; education := 0;
     eating_out := 0; entertainment := 0; misc := 0 |}.

(** Every category past its high threshold. *)
Definition raw_overspent : RawInputs :=
  {| income := 2000; age := 23; dependents := 0;
     occupation := "Student"; city_tier := "Tier_3";
     desired_savings := 1000; actual_savings := 500;
     rent := 900; loan_repay := 700; insurance := 0;
     groceries := 0; transport := 0; utilities := 0; healthcare := 0; education := 0;
     eating_out := 800; entertainment := 0; misc := 0 |}.

(** Each of the eleven expense amounts equal to 1. *)
Definition raw_ones : RawInputs :=
  {| income := 1000; age := 30; dependents := 1;
     occupation := "Retired"; city_tier := "Tier_1";
     desired_savings := 0; actual_savings := 0;
     rent := 1; loan_repay := 1; insurance := 1;
     groceries := 1; transport := 1; utilities := 1; healthcare := 1; education := 1;
     eating_out := 1; entertainment := 1; misc := 1 |}.

(** Fixed expenses on which the two algorithms of [sum] differ. *)
Definition raw_rounding : RawInputs :=
  {| income := 1000; age := 30; dependents := 1;
     occupation := "Employed"; city_tier := "Tier_1";
     desired_savings := 0; actual_savings := 0;
     rent := 288.6; loan_repay := 82.7; insurance := 628.7;
     groceries := 0; transport := 0; utilities := 0; healthcare := 0; education := 0;
     eating_out := 0; entertainment := 0; misc := 0 |}.

(** A schema with seen names, a repeated name and an unseen one. *)
Definition sample_schema : list string :=
  ["Income"; "Age"; "Total_Expenses"; "Rent_to_Income"; "Overspending_Alert";
   "Occupation_Student"; "City_Tier_Tier_2"; "Eating_Out"; "Credit_Score"; "Age"].

(** A row on which the medium discretionary, the medium rent and the loan
    rule fire, and nothing else. *)
Definition row_three_low : gmap string value :=
  dict_of [("Disposable_Utilization", VFloat 0.5);
           ("Savings_vs_Desired", VFloat 0.2);
           ("Discretionary_to_Income", VFloat 0.3);
           ("Rent_to_Income", VFloat 0.35);
           ("Loan_to_Income", VFloat 0.35)].

(** The row of a sample (the empty dict if the deriver raised). *)
Definition row_of (r : RawInputs) (feature_cols : list string) : gmap string value :=
  match user_data r feature_cols with
  | Ok d => d
  | Raise _ => ∅
  end.

(** ** Profile insights (lines 107-111 and 174)

    [profile_map.get(cluster, 'N/A')] for the cluster id the model returns. *)

Definition profile_map : gmap Z string :=
  <[2%Z := "📈 Frugal individuals with strong savings habits"]>
    (<[1%Z := "💼 Balanced spenders with moderate savings"]>
       (<[0%Z := "🧾 Likely high spenders with low savings"]> ∅)).

Definition profile_insight (cluster : Z) : string :=
  default "N/A" (profile_map !! cluster).

(** ** Further vocabulary *)

(** The four priority levels in increasing order (any other string ranks 0). *)
Definition priority_rank (p : string) : nat :=
  if String.eqb p "High" then 3
  else if String.eqb p "Medium" then 2
  else if String.eqb p "Low" then 1
  else 0.

(** The number of rule categories that fire on a row. *)
Definition fired_categories (row : gmap string value) : nat :=
  (if overspending_fires row then 1 else 0)
  + (if savings_gap_fires row then 1 else 0)
  + (if discretionary_fires row then 1 else 0)
  + (if rent_burden_fires row then 1 else 0)
  + (if loan_burden_fires row then 1 else 0).

(** The priority read off the thresholds, without the messages. *)
Definition priority_by_thresholds (row : gmap string value) : string :=
  if exceeds row "Disposable_Utilization" 1.0
     || falls_below row "Savings_vs_Desired" (-0.1)
     || exceeds row "Rent_to_Income" 0.4 then "High"
  else if exceeds row "Disposable_Utilization" 0.85
          || falls_below row "Savings_vs_Desired" (-0.05)
          || exceeds row "Discretionary_to_Income" 0.35
          || (3 <=? fired_categories row) then "Medium"
  else if 1 <=? fired_categories row then "Low"
  else "None".

(** The int a dict holds at a key (0 when there is none). *)
Definition column_int (d : gmap string value) (key : string) : Z :=
  match d !! key with
  | Some (VInt z) => z
  | _ => 0%Z
  end.

(** The entries of the dict display of lines 77-92, in order. *)
Definition display_entries (r : RawInputs) (m : DerivedMetrics) : list (string * value) :=
  [("Income", VFloat (income r));
   ("Age", VInt (age r));
   ("Dependents", VInt (dependents r));
   ("Desired_Savings", VFloat (desired_savings r));
   ("Actual_Savings", VFloat (actual_savings r));
   ("Total_Expenses", VFloat (total_expenses m));
   ("Disposable_Utilization", VFloat (disposable_utilization m));
   ("Discretionary_to_Income", VFloat (discretionary_to_income m));
   ("Savings_vs_Desired", VFloat (savings_vs_desired m));
   ("Rent_to_Income", VFloat (rent_to_income m));
   ("Loan_to_Income", VFloat (loan_to_income m));
   ("Overspending_Alert", VBool (overspending_alert m));
   ("Savings_Rate", VFloat (savings_rate m))]
  ++ unpack (fixed r) ++ unpack (essential r) ++ unpack (discretionary r).

(** The range the form gives the income (line 30: [min_value=1000.0],
    [max_value=100000.0]). *)
Definition income_in_form_range (r : RawInputs) : bool :=
  (1000 <=? income r)%float && (income r <=? 100000)%float.

(** Two forms with the same income, savings and expense amounts. *)
Definition same_finances (r r' : RawInputs) : Prop :=
  income r = income r'
  /\ desired_savings r = desired_savings r'
  /\ actual_savings r = actual_savings r'
  /\ fixed r = fixed r'
  /\ essential r = essential r'
  /\ discretionary r = discretionary r'.

(** ** Facts about float comparison

    The primitive comparisons are specified by [SFcompare] on the decoded
    floats; the order it describes is asymmetric and separates [<] from [==]. *)

Section FloatOrder.

Lemma SFcompare_antisym (x y : spec_float) :
  SFcompare y x = option_map CompOpp (SFcompare x y).
Proof.
  destruct x as [sx|sx| |sx mx ex], y as [sy|sy| |sy my ey];
    try (destruct sx); try (destruct sy); try reflexivity; simpl;
    rewrite (Z.compare_antisym ey ex);
    destruct (ey ?= ex)%Z eqn:E; simpl; try reflexivity;
    rewrite (Pos.compare_cont_antisym mx my Eq); simpl;
    try rewrite CompOpp_involutive; reflexivity.
Qed.

Lemma ltb_asym (x y : float) : (x <? y)%float = true -> (y <? x)%float = false.
Proof.
  rewrite !FloatAxioms.ltb_spec. unfold SFltb.
  rewrite (SFcompare_antisym (Prim2SF x) (Prim2SF y)).
  destruct (SFcompare (Prim2SF x) (Prim2SF y)) as [[]|]; simpl; congruence.
Qed.

Lemma ltb_not_eqb (x y : float) : (x <? y)%float = true -> (y =? x)%float = false.
Proof.
  rewrite FloatAxioms.ltb_spec, FloatAxioms.eqb_spec. unfold SFltb, SFeqb.
  rewrite (SFcompare_antisym (Prim2SF x) (Prim2SF y)).
  destruct (SFcompare (Prim2SF x) (Prim2SF y)) as [[]|]; simpl; congruence.
Qed.

Lemma gtb_not_eqb (x y : float) : (x <? y)%float = true -> (x =? y)%float = false.
Proof.
  rewrite FloatAxioms.ltb_spec, FloatAxioms.eqb_spec. unfold SFltb, SFeqb.
  destruct (SFcompare (Prim2SF x) (Prim2SF y)) as [[]|]; simpl; congruence.
Qed.

(** A value strictly below a constant does not exceed it. *)
Lemma value_lt_not_gt (v : value) (c : float) :
  value_lt v c = true -> value_gt v c = false.
Proof.
  destruct v as [f|z|b]; simpl.
  - apply ltb_asym.
  - destruct (Z_compare_float z c) as [[]|]; congruence.
  - destruct (Z_compare_float _ c) as [[]|]; congruence.
Qed.

End FloatOrder.

(** ** The rule engine, tier by tier *)

Section RuleEngine.

Lemma present_In (m : string) (l : list string) : present m l = true <-> In m l.
Proof.
  unfold present. rewrite existsb_exists. split.
  - intros (x & Hx & E). apply String.eqb_eq in E. now subst.
  - intros H. exists m. split; [exact H | apply String.eqb_refl].
Qed.

(** On a row with the five ratios, [generate_nudges] returns the
    concatenation of the five contributions. *)
Lemma generate_nudges_complete (row : gmap string value) :
  has_metrics row -> generate_nudges row = Ok (nudges_of row).
Proof.
  unfold has_metrics, ratio_keys. intros H.
  repeat (apply Forall_cons in H; destruct H as [[? ?] H]).
  unfold generate_nudges, nudges_of, exceeds, falls_below, getitem.
  repeat match goal with E : row !! _ = Some _ |- _ => rewrite E; clear E end.
  cbn.
  repeat match goal with
         | |- context [value_gt ?v ?c] => destruct (value_gt v c); cbn
         | |- context [value_lt ?v ?c] => destruct (value_lt v c); cbn
         end; reflexivity.
Qed.

(** It returns only on such rows. *)
Lemma generate_nudges_Ok_inv (row : gmap string value) (l : list string) :
  generate_nudges row = Ok l -> has_metrics row.
Proof.
  unfold generate_nudges, getitem. intros H.
  need_key H row "Disposable_Utilization";
    need_key H row "Savings_vs_Desired";
    need_key H row "Discretionary_to_Income";
    need_key H row "Rent_to_Income";
    need_key H row "Loan_to_Income";
    repeat (apply Forall_cons; split); try apply Forall_nil;
    eexists; eassumption.
Qed.

Lemma generate_nudges_Ok (row : gmap string value) (l : list string) :
  generate_nudges row = Ok l <-> has_metrics row /\ l = nudges_of row.
Proof.
  split.
  - intros H. pose proof (generate_nudges_Ok_inv _ _ H) as Hm.
    rewrite (generate_nudges_complete _ Hm) in H. split; [exact Hm | congruence].
  - intros [Hm ->]. now apply generate_nudges_complete.
Qed.

End RuleEngine.

(** ** The priority classifier *)

Section Classifier.

Lemma message_category_known (n : string) :
  is_Some (message_category n) -> In n (map fst rule_messages).
Proof.
  unfold message_category, rule_messages, assoc. intros H.
  repeat match type of H with
         | context [String.eqb n ?m] =>
             destruct (String.eqb n m) eqn:E;
             [apply String.eqb_eq in E; subst n; cbn; tauto | clear E]
         end.
  destruct H as [c H]. discriminate.
Qed.

(** On the messages of the rule set each scan singles out three of them. *)
Lemma scans_on_rule_messages (n : string) :
  is_Some (message_category n) ->
  high_scan n = (String.eqb msg_overspending_high n || String.eqb msg_savings_high n
                 || String.eqb msg_rent_high n)
  /\ medium_scan n = (String.eqb msg_overspending_medium n
                      || String.eqb msg_savings_medium n
                      || String.eqb msg_discretionary_high n).
Proof.
  intros H. apply message_category_known in H. cbn in H.
  repeat (destruct H as [<-|H]; [split; vm_compute; reflexivity|]).
  destruct H.
Qed.

Lemma orb_shuffle (a b c x y z : bool) :
  (a || b || c) || (x || y || z) = (a || x) || (b || y) || (c || z).
Proof. destruct a, b, c, x, y, z; reflexivity. Qed.

Lemma classify_on_rule_messages (l : list string) :
  Forall (fun n => is_Some (message_category n)) l ->
  classify_nudge_priority l =
    if present msg_overspending_high l || present msg_savings_high l
       || present msg_rent_high l then "High"
    else if present msg_overspending_medium l || present msg_savings_medium l
            || present msg_discretionary_high l || (3 <=? length l) then "Medium"
    else if negb (length l =? 0) then "Low"
    else "None".
Proof.
  intros H. unfold classify_nudge_priority. fold high_scan medium_scan.
  assert (existsb high_scan l
          = (present msg_overspending_high l || present msg_savings_high l
             || present msg_rent_high l)
          /\ existsb medium_scan l
             = (present msg_overspending_medium l || present msg_savings_medium l
                || present msg_discretionary_high l)) as [-> ->]; [|reflexivity].
  induction H as [|n l Hn _ [IHh IHm]]; [split; reflexivity|].
  destruct (scans_on_rule_messages n Hn) as [Eh Em].
  unfold present in *. cbn [existsb]. rewrite Eh, Em, IHh, IHm.
  split; apply orb_shuffle.
Qed.

Lemma two_tier_known (high medium : bool) (mh ml : string) :
  is_Some (message_category mh) -> is_Some (message_category ml) ->
  Forall (fun n => is_Some (message_category n)) (two_tier high medium mh ml).
Proof.
  intros. unfold two_tier. destruct high, medium; repeat constructor; assumption.
Qed.

Lemma nudges_of_known (row : gmap string value) :
  Forall (fun n => is_Some (message_category n)) (nudges_of row).
Proof.
  unfold nudges_of, one_tier. repeat apply Forall_app_2.
  5: destruct (exceeds row "Loan_to_Income" _); repeat constructor.
  all: try apply two_tier_known.
  all: vm_compute; eauto.
Qed.

End Classifier.

(** ** Properties of the rule engine and of the classifier *)

(** Three nudges that neither scan matches: Medium by the count. *)
Example scenario_three_low :
  nudge_priority row_three_low
  = Ok ([msg_discretionary_medium; msg_rent_medium; msg_loan], "Medium").
Proof. vm_compute. reflexivity. Qed.

(** C4: the priority is "None" exactly when the nudge list is empty; on every
    list the priority is one of the four levels, so a non-empty list is
    classified Low, Medium or High.  This holds for every list of strings, in
    particular for the list [generate_nudges] returns. *)
Theorem priority_None_iff_empty (nudges : list string) :
  (classify_nudge_priority nudges = "None" <-> nudges = [])
  /\ (classify_nudge_priority nudges = "None"
      \/ classify_nudge_priority nudges = "Low"
      \/ classify_nudge_priority nudges = "Medium"
      \/ classify_nudge_priority nudges = "High").
Proof.
  unfold classify_nudge_priority.
  destruct nudges as [|n l].
  - split; [split; reflexivity | left; reflexivity].
  - cbn [length Nat.eqb negb].
    destruct (existsb _ (n :: l)); [|destruct (existsb _ (n :: l) || _)];
      (split; [split; discriminate | tauto]).
Qed.

(** C10: [generate_nudges] reads the row only at the five ratio keys: two rows
    that agree there give the same result (the same list, or the same
    [KeyError]), whatever else they hold. *)
Theorem generate_nudges_reads_five_ratios (row1 row2 : gmap string value) :
  (forall key, In key ratio_keys -> row1 !! key = row2 !! key) ->
  generate_nudges row1 = generate_nudges row2.
Proof.
  intros H. unfold generate_nudges, getitem.
  rewrite !(H "Disposable_Utilization"), !(H "Savings_vs_Desired"),
    !(H "Discretionary_to_Income"), !(H "Rent_to_Income"), !(H "Loan_to_Income");
    (reflexivity || (cbn; tauto)).
Qed.

(** C2: on every list the rule engine returns, the classifier is the first
    match of: High iff an Overspending-high, SavingsGap-high or RentBurden-high
    nudge is present; else Medium iff an Overspending-medium, SavingsGap-medium
    or Discretionary-high nudge is present or there are at least three nudges;
    else Low iff the list is non-empty; else None. *)
Theorem classify_decision_sequence (row : gmap string value) (l : list string) :
  generate_nudges row = Ok l ->
  let high :=
    In msg_overspending_high l \/ In msg_savings_high l \/ In msg_rent_high l in
  let medium :=
    In msg_overspending_medium l \/ In msg_savings_medium l
    \/ In msg_discretionary_high l \/ 3 <= length l in
  (classify_nudge_priority l = "High" <-> high)
  /\ (classify_nudge_priority l = "Medium" <-> ~ high /\ medium)
  /\ (classify_nudge_priority l = "Low" <-> ~ high /\ ~ medium /\ l <> [])
  /\ (classify_nudge_priority l = "None" <-> ~ high /\ ~ medium /\ l = []).
Proof.
  intros H high medium. apply generate_nudges_Ok in H as [_ ->].
  rewrite (classify_on_rule_messages _ (nudges_of_known row)).
  subst high medium. rewrite <- !present_In, <- Nat.leb_le.
  generalize (nudges_of row) as l. intros l.
  destruct l as [|n l].
  - vm_compute. intuition discriminate.
  - cbn [length Nat.eqb negb].
    destruct (present msg_overspending_high _), (present msg_savings_high _),
      (present msg_rent_high _), (present msg_overspending_medium _),
      (present msg_savings_medium _), (present msg_discretionary_high _),
      (3 <=? S (length l)); cbn [orb];
      intuition (discriminate || congruence).
Qed.

(** C9: [generate_nudges] emits at most one message per rule category, hence
    at most five messages, in the category order Overspending, SavingsGap,
    Discretionary, RentBurden, LoanBurden (the categories of the messages are
    strictly increasing in rank); within a category the high threshold is
    tested first and, when passed, the medium message is not emitted. *)
Theorem one_message_per_category (row : gmap string value) (l : list string) :
  generate_nudges row = Ok l ->
  length l <= 5
  /\ (exists cats : list category,
        map message_category l = map Some cats
        /\ StronglySorted lt (map category_rank cats))
  /\ (In msg_overspending_high l <-> exceeds row "Disposable_Utilization" 1.0 = true)
  /\ (In msg_overspending_medium l <->
        exceeds row "Disposable_Utilization" 1.0 = false
        /\ exceeds row "Disposable_Utilization" 0.85 = true)
  /\ (In msg_savings_high l <-> falls_below row "Savings_vs_Desired" (-0.1) = true)
  /\ (In msg_savings_medium l <->
        falls_below row "Savings_vs_Desired" (-0.1) = false
        /\ falls_below row "Savings_vs_Desired" (-0.05) = true)
  /\ (In msg_discretionary_high l <-> exceeds row "Discretionary_to_Income" 0.35 = true)
  /\ (In msg_discretionary_medium l <->
        exceeds row "Discretionary_to_Income" 0.35 = false
        /\ exceeds row "Discretionary_to_Income" 0.25 = true)
  /\ (In msg_rent_high l <-> exceeds row "Rent_to_Income" 0.4 = true)
  /\ (In msg_rent_medium l <->
        exceeds row "Rent_to_Income" 0.4 = false
        /\ exceeds row "Rent_to_Income" 0.3 = true)
  /\ (In msg_loan l <-> exceeds row "Loan_to_Income" 0.3 = true).
Proof.
  intros H. apply generate_nudges_Ok in H as [_ ->].
  unfold nudges_of, two_tier, one_tier.
  rewrite <- !present_In.
  repeat match goal with
         | |- context [exceeds ?r ?k ?c] => generalize (exceeds r k c); intro
         | |- context [falls_below ?r ?k ?c] => generalize (falls_below r k c); intro
         end.
  split; [|split].
  - repeat match goal with
           | |- context [if ?b then _ else _] => destruct b
           end; cbn; lia.
  - repeat match goal with
           | |- context [if ?b then _ else _] => destruct b
           end;
      match goal with
      | |- exists cats, map message_category ?l = _ /\ _ =>
          exists (omap message_category l)
      end; vm_compute; (split; [reflexivity | repeat constructor]).
  - repeat match goal with
           | |- context [if ?b then _ else _] => destruct b
           end; vm_compute; intuition congruence.
Qed.

(** C8: when the loan-burden rule is the only one that fires, the list is the
    single loan-burden message and its priority is Low. *)
Theorem loan_burden_alone_is_Low (row : gmap string value) :
  has_metrics row ->
  loan_burden_fires row = true ->
  overspending_fires row = false ->
  savings_gap_fires row = false ->
  discretionary_fires row = false ->
  rent_burden_fires row = false ->
  nudge_priority row = Ok ([msg_loan], "Low").
Proof.
  unfold loan_burden_fires, overspending_fires, savings_gap_fires,
    discretionary_fires, rent_burden_fires, nudge_priority.
  intros Hm Hl [Ho1 Ho2]%orb_false_elim [Hs1 Hs2]%orb_false_elim
    [Hd1 Hd2]%orb_false_elim [Hr1 Hr2]%orb_false_elim.
  rewrite (generate_nudges_complete _ Hm). unfold nudges_of.
  rewrite Hl, Ho1, Ho2, Hs1, Hs2, Hd1, Hd2, Hr1, Hr2.
  vm_compute. reflexivity.
Qed.

(** C1, amended: when the discretionary ratio lies strictly between 0.25 and
    0.35 and no other rule category fires, the list is the single medium-tier
    discretionary message and its priority is Low. *)
Theorem discretionary_medium_alone_is_Low (row : gmap string value) :
  has_metrics row ->
  exceeds row "Discretionary_to_Income" 0.25 = true ->
  falls_below row "Discretionary_to_Income" 0.35 = true ->
  overspending_fires row = false ->
  savings_gap_fires row = false ->
  rent_burden_fires row = false ->
  loan_burden_fires row = false ->
  nudge_priority row = Ok ([msg_discretionary_medium], "Low").
Proof.
  unfold loan_burden_fires, overspending_fires, savings_gap_fires,
    rent_burden_fires, nudge_priority.
  intros Hm Hd2 Hd1 [Ho1 Ho2]%orb_false_elim [Hs1 Hs2]%orb_false_elim
    [Hr1 Hr2]%orb_false_elim Hl.
  assert (exceeds row "Discretionary_to_Income" 0.35 = false) as Hd3.
  { unfold exceeds, falls_below in *.
    destruct (row !! "Discretionary_to_Income"); [|reflexivity].
    now apply value_lt_not_gt. }
  rewrite (generate_nudges_complete _ Hm). unfold nudges_of.
  rewrite Hl, Ho1, Ho2, Hs1, Hs2, Hd2, Hd3, Hr1, Hr2.
  vm_compute. reflexivity.
Qed.

(** ** The metric deriver and the feature vector *)

Section Deriver.

(** With a non-zero income no division raises and every variable of the
    block is the plain IEEE result. *)
Lemma derive_metrics_Ok (r : RawInputs) :
  (income r =? 0)%float = false ->
  exists m : DerivedMetrics,
    derive_metrics r = Ok m
    /\ total_expenses m
       = (Py.sum py (values (fixed r)) + Py.sum py (values (essential r))
          + Py.sum py (values (discretionary r)))%float
    /\ disposable_utilization m = (total_expenses m / income r)%float
    /\ overspending_alert m = (1.0 <? disposable_utilization m)%float.
Proof.
  intros H. unfold derive_metrics, float_div. rewrite H. cbn.
  eexists. split; [reflexivity|]. cbn. repeat split.
Qed.

(** With a zero income the first division raises. *)
Lemma derive_metrics_zero (r : RawInputs) :
  (income r =? 0)%float = true -> derive_metrics r = Raise ZeroDivisionError.
Proof.
  intros H. unfold derive_metrics, float_div. rewrite H. reflexivity.
Qed.

Lemma positive_income_nonzero (r : RawInputs) :
  (0 <? income r)%float = true -> (income r =? 0)%float = false.
Proof. apply ltb_not_eqb. Qed.

Lemma negative_income_nonzero (r : RawInputs) :
  (income r <? 0)%float = true -> (income r =? 0)%float = false.
Proof. apply gtb_not_eqb. Qed.

End Deriver.

Section Assembler.

(** The keys present after the one-hot loops do not depend on the inputs. *)
Lemma dom_user_data_encoded (r : RawInputs) (m : DerivedMetrics) :
  dom (user_data_encoded r m) = list_to_set populated_keys.
Proof.
  vm_cast_no_check (@eq_refl (gset string) (list_to_set populated_keys)).
Qed.

Lemma user_data_encoded_None (r : RawInputs) (m : DerivedMetrics) (col : string) :
  user_data_encoded r m !! col = None <-> ~ In col populated_keys.
Proof.
  rewrite <- not_elem_of_dom, dom_user_data_encoded, elem_of_list_to_set,
    list_elem_of_In. reflexivity.
Qed.

(** The loop of lines 99-101 keeps what is there and puts 0 at the other
    schema columns. *)
Lemma fill_missing_lookup (feature_cols : list string) (d : gmap string value)
    (key : string) :
  fill_missing feature_cols d !! key =
    match d !! key with
    | Some v => Some v
    | None => if decide (key ∈ feature_cols) then Some (VInt 0) else None
    end.
Proof.
  revert d. induction feature_cols as [|col cols IH]; intros d; cbn.
  - destruct (d !! key); [reflexivity|].
    now rewrite decide_False by apply not_elem_of_nil.
  - unfold fill_missing in IH. rewrite IH. clear IH.
    destruct (d !! col) eqn:Ecol.
    + destruct (d !! key) eqn:Ekey; [reflexivity|].
      assert (key <> col) by congruence.
      destruct (decide (key ∈ col :: cols)) as [Hin|Hout],
        (decide (key ∈ cols)) as [Hin'|Hout'];
        try reflexivity; exfalso; rewrite elem_of_cons in *; tauto.
    + destruct (decide (key = col)) as [->|Hne].
      * rewrite lookup_insert_eq, Ecol.
        now rewrite decide_True by apply elem_of_cons, or_introl, eq_refl.
      * rewrite lookup_insert_ne by congruence.
        destruct (d !! key); [reflexivity|].
        destruct (decide (key ∈ col :: cols)) as [Hin|Hout],
        (decide (key ∈ cols)) as [Hin'|Hout'];
        try reflexivity; exfalso; rewrite elem_of_cons in *; tauto.
Qed.

Lemma select_columns_Ok (cols : list string) (d : gmap string value) :
  Forall (fun col => is_Some (d !! col)) cols ->
  select_columns cols d = Ok (map (fun col => (col, default (VInt 0) (d !! col))) cols).
Proof.
  induction 1 as [|col cols [v Hv] _ IH]; [reflexivity|].
  cbn. unfold getitem. rewrite Hv, IH. reflexivity.
Qed.

(** [input_df]: one entry per schema column, in schema order, holding the
    value of [user_data] after line 98, or 0 where there is none. *)
Lemma input_df_Ok (r : RawInputs) (m : DerivedMetrics) (feature_cols : list string) :
  derive_metrics r = Ok m ->
  input_df r feature_cols =
    Ok (map (fun col => (col, default (VInt 0) (user_data_encoded r m !! col)))
          feature_cols).
Proof.
  intros H. unfold input_df, user_data. rewrite H.
  cbn [mbind mret result_bind result_ret Py.bind].
  rewrite select_columns_Ok.
  - f_equal. apply map_ext_in. intros col Hcol. f_equal.
    rewrite fill_missing_lookup.
    destruct (user_data_encoded r m !! col); [reflexivity|].
    rewrite decide_True by now apply list_elem_of_In. reflexivity.
  - apply Forall_forall. intros col Hcol. rewrite fill_missing_lookup.
    destruct (user_data_encoded r m !! col); [eauto|].
    rewrite decide_True by exact Hcol. eauto.
Qed.

(** A key present after line 98 keeps its value in the final [user_data]. *)
Lemma fill_missing_keeps (feature_cols : list string) (d : gmap string value)
    (key : string) (v : value) :
  d !! key = Some v -> fill_missing feature_cols d !! key = Some v.
Proof. intros H. now rewrite fill_missing_lookup, H. Qed.

Lemma user_data_Ok (r : RawInputs) (m : DerivedMetrics) (feature_cols : list string) :
  derive_metrics r = Ok m ->
  user_data r feature_cols = Ok (fill_missing feature_cols (user_data_encoded r m)).
Proof. intros H. unfold user_data. rewrite H. reflexivity. Qed.

End Assembler.

(** C3, amended: with income equal to zero the deriver raises Python's
    [ZeroDivisionError] ("float division by zero"); with a negative income it
    returns; with a positive income it returns, so it has no failure mode
    there. *)
Theorem derive_metrics_failure_modes (r : RawInputs) :
  ((income r =? 0)%float = true -> derive_metrics r = Raise ZeroDivisionError)
  /\ ((income r <? 0)%float = true -> exists m : DerivedMetrics, derive_metrics r = Ok m)
  /\ ((0 <? income r)%float = true -> exists m : DerivedMetrics, derive_metrics r = Ok m).
Proof.
  split; [apply derive_metrics_zero|].
  split; intros H.
  - apply negative_income_nonzero in H.
    destruct (derive_metrics_Ok r H) as (m & Hm & _). eauto.
  - apply positive_income_nonzero in H.
    destruct (derive_metrics_Ok r H) as (m & Hm & _). eauto.
Qed.

(** C5: with a positive income the block returns, [Disposable_Utilization] is
    [Total_Expenses / income], and [Overspending_Alert] is true exactly when
    [Disposable_Utilization > 1.0]; [user_data] holds both under their names. *)
Theorem overspending_alert_iff (r : RawInputs) (feature_cols : list string) :
  (0 <? income r)%float = true ->
  exists (m : DerivedMetrics) (d : gmap string value),
    derive_metrics r = Ok m
    /\ user_data r feature_cols = Ok d
    /\ disposable_utilization m = (total_expenses m / income r)%float
    /\ d !! "Disposable_Utilization" = Some (VFloat (disposable_utilization m))
    /\ d !! "Overspending_Alert" = Some (VBool (overspending_alert m))
    /\ (overspending_alert m = true <-> (1.0 <? disposable_utilization m)%float = true).
Proof.
  intros H. apply positive_income_nonzero in H.
  destruct (derive_metrics_Ok r H) as (m & Hm & _ & Hdu & Hoa).
  exists m, (fill_missing feature_cols (user_data_encoded r m)).
  split; [exact Hm|]. split; [now apply user_data_Ok|].
  split; [exact Hdu|].
  split; [apply fill_missing_keeps; vm_compute; reflexivity|].
  split; [apply fill_missing_keeps; vm_compute; reflexivity|].
  rewrite Hoa. reflexivity.
Qed.

(** C6, amended: with a positive income, [Total_Expenses] is exactly the sum
    of the eleven expense amounts grouped into the three category sets: the
    builtin [sum] of the three fixed amounts, plus that of the five essential
    amounts, plus that of the three discretionary amounts, on either
    interpreter; [user_data] holds the total and the eleven amounts under
    their names. *)
Theorem total_expenses_is_sum_of_eleven (r : RawInputs) (feature_cols : list string) :
  (0 <? income r)%float = true ->
  exists (m : DerivedMetrics) (d : gmap string value),
    derive_metrics r = Ok m
    /\ user_data r feature_cols = Ok d
    /\ expense_amounts r
       = [rent r; loan_repay r; insurance r;
          groceries r; transport r; utilities r; healthcare r; education r;
          eating_out r; entertainment r; misc r]
    /\ total_expenses m
       = (Py.sum py [rent r; loan_repay r; insurance r]
          + Py.sum py [groceries r; transport r; utilities r; healthcare r; education r]
          + Py.sum py [eating_out r; entertainment r; misc r])%float
    /\ d !! "Total_Expenses" = Some (VFloat (total_expenses m))
    /\ Forall (fun kv => d !! kv.1 = Some (VFloat kv.2))
         (fixed r ++ essential r ++ discretionary r).
Proof.
  intros H. apply positive_income_nonzero in H.
  destruct (derive_metrics_Ok r H) as (m & Hm & Ht & _).
  exists m, (fill_missing feature_cols (user_data_encoded r m)).
  split; [exact Hm|]. split; [now apply user_data_Ok|].
  split; [reflexivity|]. split; [exact Ht|].
  split; [apply fill_missing_keeps; vm_compute; reflexivity|].
  cbn [fixed essential discretionary app].
  repeat (apply Forall_cons; split;
          [apply fill_missing_keeps; vm_compute; reflexivity|]).
  constructor.
Qed.

(** C7: whenever the script reaches the assembly (the income is not zero),
    [input_df] has the schema as its key sequence, hence the length of the
    schema, and holds 0 at every schema column that is not a key of
    [user_data] after the one-hot loops.  This holds for every schema, the
    non-empty ones in particular. *)
Theorem feature_vector_follows_schema (r : RawInputs) (feature_cols : list string) :
  (income r =? 0)%float = false ->
  exists fv : list (string * value),
    input_df r feature_cols = Ok fv
    /\ map fst fv = feature_cols
    /\ length fv = length feature_cols
    /\ Forall (fun cv => ~ In cv.1 populated_keys -> cv.2 = VInt 0) fv.
Proof.
  intros H. destruct (derive_metrics_Ok r H) as (m & Hm & _).
  eexists. split; [exact (input_df_Ok r m feature_cols Hm)|].
  split; [|split].
  - rewrite map_map. cbn. apply map_id.
  - apply length_map.
  - apply Forall_map, Forall_forall. intros col _ Hcol. cbn [fst snd] in *.
    apply (user_data_encoded_None r m) in Hcol. now rewrite Hcol.
Qed.

(** ** The classifier on arbitrary lists *)

Section ClassifierOrder.

Lemma classify_scans (l : list string) :
  classify_nudge_priority l =
    if existsb high_scan l then "High"
    else if existsb medium_scan l || (3 <=? length l) then "Medium"
    else if negb (length l =? 0) then "Low"
    else "None".
Proof. reflexivity. Qed.

Lemma existsb_Permutation {A : Type} (f : A -> bool) (l l' : list A) :
  Permutation l l' -> existsb f l = existsb f l'.
Proof.
  induction 1 as [|x l l' _ IH|x y l|l l' l'' _ IH1 _ IH2]; cbn.
  - reflexivity.
  - now rewrite IH.
  - destruct (f x), (f y); reflexivity.
  - congruence.
Qed.

End ClassifierOrder.

(** X1: adding nudges to a list, in front or behind, never lowers its
    priority in the order None < Low < Medium < High. *)
Theorem priority_monotone (l more : list string) :
  priority_rank (classify_nudge_priority l)
    <= priority_rank (classify_nudge_priority (l ++ more))
  /\ priority_rank (classify_nudge_priority l)
       <= priority_rank (classify_nudge_priority (more ++ l)).
Proof.
  rewrite !classify_scans, !existsb_app, !length_app.
  generalize (length l) (length more). intros n k.
  destruct (existsb high_scan l), (existsb high_scan more),
    (existsb medium_scan l), (existsb medium_scan more);
    destruct n as [|[|[|n]]], k as [|[|[|k]]]; cbn;
    try (split; lia);
    rewrite ?Nat.add_succ_r; cbn; split; lia.
Qed.

(** X2: the priority depends on the nudges only, not on their order. *)
Theorem priority_order_independent (l l' : list string) :
  Permutation l l' -> classify_nudge_priority l = classify_nudge_priority l'.
Proof.
  intros H. rewrite !classify_scans.
  rewrite (existsb_Permutation high_scan _ _ H),
    (existsb_Permutation medium_scan _ _ H), (Permutation_length H).
  reflexivity.
Qed.

Lemma priority_order_independent_witness :
  classify_nudge_priority [msg_loan; msg_rent_high; msg_discretionary_medium]
  = classify_nudge_priority [msg_discretionary_medium; msg_rent_high; msg_loan].
Proof.
  apply priority_order_independent.
  apply (Permutation_rev [msg_loan; msg_rent_high; msg_discretionary_medium]).
Defined.

(** ** More on the rule engine *)

Section RuleEngineEdges.

(** Which messages the five contributions hold. *)
Lemma nudges_of_members (row : gmap string value) :
  (In msg_overspending_high (nudges_of row)
   <-> exceeds row "Disposable_Utilization" 1.0 = true)
  /\ (In msg_overspending_medium (nudges_of row)
      <-> exceeds row "Disposable_Utilization" 1.0 = false
          /\ exceeds row "Disposable_Utilization" 0.85 = true)
  /\ (In msg_savings_high (nudges_of row)
      <-> falls_below row "Savings_vs_Desired" (-0.1) = true)
  /\ (In msg_savings_medium (nudges_of row)
      <-> falls_below row "Savings_vs_Desired" (-0.1) = false
          /\ falls_below row "Savings_vs_Desired" (-0.05) = true)
  /\ (In msg_discretionary_high (nudges_of row)
      <-> exceeds row "Discretionary_to_Income" 0.35 = true)
  /\ (In msg_discretionary_medium (nudges_of row)
      <-> exceeds row "Discretionary_to_Income" 0.35 = false
          /\ exceeds row "Discretionary_to_Income" 0.25 = true)
  /\ (In msg_rent_high (nudges_of row) <-> exceeds row "Rent_to_Income" 0.4 = true)
  /\ (In msg_rent_medium (nudges_of row)
      <-> exceeds row "Rent_to_Income" 0.4 = false
          /\ exceeds row "Rent_to_Income" 0.3 = true)
  /\ (In msg_loan (nudges_of row) <-> exceeds row "Loan_to_Income" 0.3 = true).
Proof.
  unfold nudges_of, two_tier, one_tier.
  rewrite <- !present_In.
  repeat match goal with
         | |- context [exceeds ?r ?k ?c] => generalize (exceeds r k c); intro
         | |- context [falls_below ?r ?k ?c] => generalize (falls_below r k c); intro
         end.
  repeat match goal with
         | |- context [if ?b then _ else _] => destruct b
         end; vm_compute; intuition congruence.
Qed.

(** No float is below or above NaN. *)
Lemma ltb_nan (c : float) : (c <? nan)%float = false /\ (nan <? c)%float = false.
Proof.
  rewrite !FloatAxioms.ltb_spec. unfold SFltb.
  change (Prim2SF nan) with S754_nan.
  destruct (Prim2SF c); split; reflexivity.
Qed.

End RuleEngineEdges.

(** X3: a row that lacks one of the five ratio keys makes [generate_nudges]
    raise [KeyError] on the first missing key in reading order, whatever the
    values at the keys before it. *)
Theorem generate_nudges_first_missing_key
    (row : gmap string value) (before after : list string) (key : string) :
  ratio_keys = before ++ key :: after ->
  Forall (fun k => is_Some (row !! k)) before ->
  row !! key = None ->
  generate_nudges row = Raise (KeyError key).
Proof.
  intros Hkeys Hbefore Hkey. unfold ratio_keys in Hkeys.
  do 5 (try (destruct before as [|? before]; cbn in Hkeys;
             [injection Hkeys as <- <- | injection Hkeys as <- Hkeys])).
  6: { destruct before; discriminate Hkeys. }
  all: repeat match goal with
              | H : Forall _ (_ :: _) |- _ =>
                  apply Forall_cons in H; destruct H as [[? ?] H]
              end.
  all: unfold generate_nudges, getitem.
  all: repeat match goal with
              | E : _ !! _ = _ |- _ => rewrite E; clear E
              end.
  all: cbn.
  all: repeat match goal with
              | |- context [value_gt ?v ?c] => destruct (value_gt v c); cbn
              | |- context [value_lt ?v ?c] => destruct (value_lt v c); cbn
              end; reflexivity.
Qed.

Lemma generate_nudges_first_missing_key_witness :
  generate_nudges (delete "Loan_to_Income" (delete "Discretionary_to_Income" row_three_low))
  = Raise (KeyError "Discretionary_to_Income").
Proof.
  apply (generate_nudges_first_missing_key _
           ["Disposable_Utilization"; "Savings_vs_Desired"]
           ["Rent_to_Income"; "Loan_to_Income"]).
  - reflexivity.
  - repeat constructor; vm_compute; eexists; reflexivity.
  - vm_compute. reflexivity.
Defined.

(** X4: a category whose ratio is NaN contributes no message, whatever the
    other ratios are. *)
Theorem nan_ratio_fires_nothing (row : gmap string value) (l : list string) :
  generate_nudges row = Ok l ->
  (row !! "Disposable_Utilization" = Some (VFloat nan) ->
   ~ In msg_overspending_high l /\ ~ In msg_overspending_medium l)
  /\ (row !! "Savings_vs_Desired" = Some (VFloat nan) ->
      ~ In msg_savings_high l /\ ~ In msg_savings_medium l)
  /\ (row !! "Discretionary_to_Income" = Some (VFloat nan) ->
      ~ In msg_discretionary_high l /\ ~ In msg_discretionary_medium l)
  /\ (row !! "Rent_to_Income" = Some (VFloat nan) ->
      ~ In msg_rent_high l /\ ~ In msg_rent_medium l)
  /\ (row !! "Loan_to_Income" = Some (VFloat nan) -> ~ In msg_loan l).
Proof.
  intros H. apply generate_nudges_Ok in H as [_ ->].
  destruct (nudges_of_members row)
    as (H1 & H2 & H3 & H4 & H5 & H6 & H7 & H8 & H9).
  repeat split; repeat intro;
    match goal with
    | Hnan : _ !! _ = Some (VFloat nan), Hl : In _ _ |- _ =>
        first [apply H1 in Hl | apply H2 in Hl | apply H3 in Hl | apply H4 in Hl
              | apply H5 in Hl | apply H6 in Hl | apply H7 in Hl | apply H8 in Hl
              | apply H9 in Hl];
        unfold exceeds, falls_below in Hl; rewrite Hnan in Hl; cbn in Hl;
        rewrite ?(proj1 (ltb_nan _)), ?(proj2 (ltb_nan _)) in Hl;
        intuition discriminate
    end.
Qed.

Lemma nan_ratio_fires_nothing_witness :
  ~ In msg_rent_high [msg_discretionary_medium; msg_loan]
  /\ ~ In msg_rent_medium [msg_discretionary_medium; msg_loan].
Proof.
  assert (generate_nudges (<["Rent_to_Income" := VFloat nan]> row_three_low)
          = Ok [msg_discretionary_medium; msg_loan]) as H by (vm_compute; reflexivity).
  apply (proj1 (proj2 (proj2 (proj2 (nan_ratio_fires_nothing _ _ H))))).
  vm_compute. reflexivity.
Defined.

(** X5: the thresholds are strict.  A ratio equal to the high threshold of
    its category gets the medium message, not the high one, and a loan ratio
    equal to 0.3 gets no message. *)
Theorem thresholds_are_strict (row : gmap string value) (l : list string) :
  generate_nudges row = Ok l ->
  (row !! "Disposable_Utilization" = Some (VFloat 1.0) ->
   In msg_overspending_medium l /\ ~ In msg_overspending_high l)
  /\ (row !! "Savings_vs_Desired" = Some (VFloat (-0.1)) ->
      In msg_savings_medium l /\ ~ In msg_savings_high l)
  /\ (row !! "Discretionary_to_Income" = Some (VFloat 0.35) ->
      In msg_discretionary_medium l /\ ~ In msg_discretionary_high l)
  /\ (row !! "Rent_to_Income" = Some (VFloat 0.4) ->
      In msg_rent_medium l /\ ~ In msg_rent_high l)
  /\ (row !! "Loan_to_Income" = Some (VFloat 0.3) -> ~ In msg_loan l).
Proof.
  intros H. apply generate_nudges_Ok in H as [_ ->].
  destruct (nudges_of_members row)
    as (H1 & H2 & H3 & H4 & H5 & H6 & H7 & H8 & H9).
  rewrite H1, H2, H3, H4, H5, H6, H7, H8, H9.
  unfold exceeds, falls_below.
  repeat split; repeat intro;
    match goal with
    | Hv : _ !! _ = Some _ |- _ => rewrite Hv in *
    end; cbn in *; try discriminate; reflexivity.
Qed.

Lemma thresholds_are_strict_witness :
  In msg_rent_medium [msg_discretionary_medium; msg_rent_medium; msg_loan]
  /\ ~ In msg_rent_high [msg_discretionary_medium; msg_rent_medium; msg_loan].
Proof.
  assert (generate_nudges (<["Rent_to_Income" := VFloat 0.4]> row_three_low)
          = Ok [msg_discretionary_medium; msg_rent_medium; msg_loan]) as H
    by (vm_compute; reflexivity).
  apply (proj1 (proj2 (proj2 (proj2 (thresholds_are_strict _ _ H))))).
  vm_compute. reflexivity.
Defined.

(** X6: on a row with the five ratios, the priority is a function of the
    threshold tests alone: High when the overspending, savings or rent high
    threshold is passed; else Medium when the overspending or savings medium
    threshold or the discretionary high threshold is passed, or three
    categories fire; else Low when a category fires; else None.  The number
    of nudges is the number of categories that fire. *)
Theorem priority_from_thresholds (row : gmap string value) :
  has_metrics row ->
  exists l : list string,
    nudge_priority row = Ok (l, priority_by_thresholds row)
    /\ length l = fired_categories row.
Proof.
  intros Hm. exists (nudges_of row). unfold nudge_priority.
  rewrite (generate_nudges_complete _ Hm).
  cbn [mbind mret result_bind result_ret Py.bind].
  unfold priority_by_thresholds, fired_categories, overspending_fires,
    savings_gap_fires, discretionary_fires, rent_burden_fires, loan_burden_fires,
    nudges_of, two_tier, one_tier.
  repeat match goal with
         | |- context [exceeds ?r ?k ?c] => generalize (exceeds r k c); intro
         | |- context [falls_below ?r ?k ?c] => generalize (falls_below r k c); intro
         end.
  repeat match goal with
         | b : bool |- _ => destruct b
         end; vm_compute; split; reflexivity.
Qed.

Lemma priority_from_thresholds_witness :
  exists l : list string,
    nudge_priority row_three_low = Ok (l, "Medium") /\ length l = 3.
Proof.
  destruct (priority_from_thresholds row_three_low) as (l & H1 & H2).
  - repeat constructor; vm_compute; eexists; reflexivity.
  - exists l. split; [exact H1 | exact H2].
Defined.

(** ** More on the assembly of [user_data] and [input_df] *)

Section AssemblyEdges.

(** Every entry of the dict display is still there after the one-hot loops. *)
Lemma display_entries_kept (r : RawInputs) (m : DerivedMetrics) :
  Forall (fun kv => user_data_encoded r m !! kv.1 = Some kv.2) (display_entries r m).
Proof.
  unfold display_entries. cbn [fixed essential discretionary unpack map app].
  repeat (apply Forall_cons; split; [vm_compute; reflexivity|]).
  constructor.
Qed.

(** The one-hot columns after the loops. *)
Lemma one_hot_entries (r : RawInputs) (m : DerivedMetrics) :
  Forall (fun val =>
            user_data_encoded r m !! ("Occupation_" +:+ val)
            = Some (VInt (if String.eqb (occupation r) val then 1 else 0)))
    occupations
  /\ Forall (fun val =>
               user_data_encoded r m !! ("City_Tier_" +:+ val)
               = Some (VInt (if String.eqb (city_tier r) val then 1 else 0)))
       city_tiers.
Proof.
  split; repeat (apply Forall_cons; split; [vm_compute; reflexivity|]); constructor.
Qed.

(** The five ratios in the final [user_data] are those of the block. *)
Lemma user_data_ratios (r : RawInputs) (m : DerivedMetrics) (feature_cols : list string) :
  let d := fill_missing feature_cols (user_data_encoded r m) in
  d !! "Disposable_Utilization" = Some (VFloat (disposable_utilization m))
  /\ d !! "Savings_vs_Desired" = Some (VFloat (savings_vs_desired m))
  /\ d !! "Discretionary_to_Income" = Some (VFloat (discretionary_to_income m))
  /\ d !! "Rent_to_Income" = Some (VFloat (rent_to_income m))
  /\ d !! "Loan_to_Income" = Some (VFloat (loan_to_income m)).
Proof.
  cbv zeta. repeat split; apply fill_missing_keeps; vm_compute; reflexivity.
Qed.

Lemma user_data_has_metrics (r : RawInputs) (m : DerivedMetrics) (feature_cols : list string) :
  has_metrics (fill_missing feature_cols (user_data_encoded r m)).
Proof.
  destruct (user_data_ratios r m feature_cols) as (H1 & H2 & H3 & H4 & H5).
  unfold has_metrics, ratio_keys.
  repeat (apply Forall_cons; split; [eauto|]). constructor.
Qed.

(** The nudges of the final [user_data] do not depend on the schema. *)
Lemma nudges_of_user_data (r : RawInputs) (m : DerivedMetrics) (feature_cols : list string) :
  nudges_of (fill_missing feature_cols (user_data_encoded r m))
  = nudges_of (user_data_encoded r m).
Proof.
  destruct (user_data_ratios r m feature_cols) as (H1 & H2 & H3 & H4 & H5).
  destruct (user_data_ratios r m []) as (G1 & G2 & G3 & G4 & G5).
  cbn [fill_missing fold_left] in G1, G2, G3, G4, G5.
  unfold nudges_of, exceeds, falls_below.
  rewrite H1, H2, H3, H4, H5, G1, G2, G3, G4, G5. reflexivity.
Qed.

(** [evaluate] once the block has returned. *)
Lemma evaluate_Ok (r : RawInputs) (m : DerivedMetrics) (feature_cols : list string) :
  derive_metrics r = Ok m ->
  evaluate r feature_cols
  = Ok (nudges_of (user_data_encoded r m),
        classify_nudge_priority (nudges_of (user_data_encoded r m))).
Proof.
  intros H. unfold evaluate, nudge_priority.
  rewrite (user_data_Ok r m feature_cols H).
  cbn [mbind mret result_bind result_ret Py.bind].
  rewrite (generate_nudges_complete _ (user_data_has_metrics r m feature_cols)).
  cbn [mbind mret result_bind result_ret Py.bind].
  now rewrite nudges_of_user_data.
Qed.

Lemma evaluate_zero (r : RawInputs) (feature_cols : list string) :
  (income r =? 0)%float = true -> evaluate r feature_cols = Raise ZeroDivisionError.
Proof.
  intros H. unfold evaluate, user_data. now rewrite (derive_metrics_zero r H).
Qed.

End AssemblyEdges.

(** X7: the loop of lines 99-101 adds exactly the schema columns that are
    missing: afterwards the keys are the former keys and the schema columns,
    every former key keeps its value, and running the loop again changes
    nothing. *)
Theorem fill_missing_adds_schema (feature_cols : list string) (d : gmap string value) :
  dom (fill_missing feature_cols d) = dom d ∪ list_to_set feature_cols
  /\ (forall (key : string) (v : value),
        d !! key = Some v -> fill_missing feature_cols d !! key = Some v)
  /\ (forall key : string,
        d !! key = None -> In key feature_cols ->
        fill_missing feature_cols d !! key = Some (VInt 0))
  /\ fill_missing feature_cols (fill_missing feature_cols d)
     = fill_missing feature_cols d.
Proof.
  split; [|split; [|split]].
  - apply set_eq. intros key.
    rewrite elem_of_union, !elem_of_dom, elem_of_list_to_set, fill_missing_lookup.
    destruct (d !! key) eqn:E.
    + split; [left|]; eauto.
    + destruct (decide (key ∈ feature_cols)) as [Hin|Hout].
      * split; [now right | eauto].
      * split; [intros [? ?]; discriminate | intros [[? ?]|?]; [discriminate|contradiction]].
  - apply fill_missing_keeps.
  - intros key Hnone Hin. rewrite fill_missing_lookup, Hnone.
    now rewrite decide_True by now apply list_elem_of_In.
  - apply map_eq. intros key. rewrite !fill_missing_lookup.
    destruct (d !! key); [reflexivity|].
    destruct (decide (key ∈ feature_cols)); reflexivity.
Qed.

(** X8: the one-hot loops give every option its own column holding 1 for the
    selected option and 0 for the others, in the final [user_data] whatever
    the schema; so the four occupation columns add up to 1 when the occupation
    is one of the four options and to 0 when it is not, and likewise the three
    city-tier columns. *)
Theorem one_hot_columns (r : RawInputs) (feature_cols : list string) :
  (income r =? 0)%float = false ->
  exists d : gmap string value,
    user_data r feature_cols = Ok d
    /\ Forall (fun val =>
                 d !! ("Occupation_" +:+ val)
                 = Some (VInt (if String.eqb (occupation r) val then 1 else 0)))
         occupations
    /\ Forall (fun val =>
                 d !! ("City_Tier_" +:+ val)
                 = Some (VInt (if String.eqb (city_tier r) val then 1 else 0)))
         city_tiers
    /\ fold_right Z.add 0%Z
         (map (fun val => column_int d ("Occupation_" +:+ val)) occupations)
       = (if existsb (String.eqb (occupation r)) occupations then 1 else 0)%Z
    /\ fold_right Z.add 0%Z
         (map (fun val => column_int d ("City_Tier_" +:+ val)) city_tiers)
       = (if existsb (String.eqb (city_tier r)) city_tiers then 1 else 0)%Z.
Proof.
  intros H. destruct (derive_metrics_Ok r H) as (m & Hm & _).
  exists (fill_missing feature_cols (user_data_encoded r m)).
  split; [now apply user_data_Ok|].
  destruct (one_hot_entries r m) as [Ho Hc].
  assert (Forall (fun val =>
                    fill_missing feature_cols (user_data_encoded r m)
                      !! ("Occupation_" +:+ val)
                    = Some (VInt (if String.eqb (occupation r) val then 1 else 0)))
            occupations) as Ho'.
  { eapply Forall_impl; [exact Ho|]. intros val. apply fill_missing_keeps. }
  assert (Forall (fun val =>
                    fill_missing feature_cols (user_data_encoded r m)
                      !! ("City_Tier_" +:+ val)
                    = Some (VInt (if String.eqb (city_tier r) val then 1 else 0)))
            city_tiers) as Hc'.
  { eapply Forall_impl; [exact Hc|]. intros val. apply fill_missing_keeps. }
  split; [exact Ho'|]. split; [exact Hc'|].
  unfold occupations, city_tiers in *. cbn [map fold_right existsb].
  unfold column_int.
  repeat match goal with
         | F : Forall _ (_ :: _) |- _ => apply Forall_cons in F; destruct F as [? F]
         end.
  repeat match goal with
         | E : _ !! _ = Some _ |- _ => rewrite E; clear E
         end.
  split.
  - destruct (String.eqb (occupation r) "Employed") eqn:E1;
      destruct (String.eqb (occupation r) "Self_Employed") eqn:E2;
      destruct (String.eqb (occupation r) "Student") eqn:E3;
      destruct (String.eqb (occupation r) "Retired") eqn:E4;
      try reflexivity;
      repeat match goal with
             | E : String.eqb _ _ = true |- _ => apply String.eqb_eq in E
             end; congruence.
  - destruct (String.eqb (city_tier r) "Tier_1") eqn:E1;
      destruct (String.eqb (city_tier r) "Tier_2") eqn:E2;
      destruct (String.eqb (city_tier r) "Tier_3") eqn:E3;
      try reflexivity;
      repeat match goal with
             | E : String.eqb _ _ = true |- _ => apply String.eqb_eq in E
             end; congruence.
Qed.

(** X9: no entry of the dict display of lines 77-92 is lost: in the final
    [user_data] every raw input, derived metric and category amount is found
    under its own name, whatever the schema, and the keys are the 31 names set
    by lines 77-98 together with the schema columns. *)
Theorem user_data_holds_display (r : RawInputs) (feature_cols : list string) :
  (income r =? 0)%float = false ->
  exists (m : DerivedMetrics) (d : gmap string value),
    derive_metrics r = Ok m
    /\ user_data r feature_cols = Ok d
    /\ Forall (fun kv => d !! kv.1 = Some kv.2) (display_entries r m)
    /\ dom d = list_to_set populated_keys ∪ list_to_set feature_cols.
Proof.
  intros H. destruct (derive_metrics_Ok r H) as (m & Hm & _).
  exists m, (fill_missing feature_cols (user_data_encoded r m)).
  split; [exact Hm|]. split; [now apply user_data_Ok|]. split.
  - eapply Forall_impl; [apply display_entries_kept|].
    intros kv. apply fill_missing_keeps.
  - apply set_eq. intros key.
    rewrite elem_of_union, elem_of_dom, fill_missing_lookup,
      <- (dom_user_data_encoded r m), elem_of_dom, elem_of_list_to_set.
    destruct (user_data_encoded r m !! key) eqn:E.
    + split; [left|]; eauto.
    + destruct (decide (key ∈ feature_cols)) as [Hin|Hout].
      * split; [now right | eauto].
      * split; [intros [? ?]; discriminate
               | intros [[? ?]|?]; [discriminate|contradiction]].
Qed.

(** X10: [input_df] is the final [user_data] read at the schema columns: each
    entry holds the value [user_data] has at its column, so a column named
    twice in the schema appears twice with the same value, and no column
    lookup raises. *)
Theorem input_df_projects_user_data (r : RawInputs) (feature_cols : list string) :
  (income r =? 0)%float = false ->
  exists (d : gmap string value) (fv : list (string * value)),
    user_data r feature_cols = Ok d
    /\ input_df r feature_cols = Ok fv
    /\ Forall2 (fun col cv => cv.1 = col /\ d !! col = Some cv.2) feature_cols fv.
Proof.
  intros H. destruct (derive_metrics_Ok r H) as (m & Hm & _).
  exists (fill_missing feature_cols (user_data_encoded r m)).
  eexists. split; [now apply user_data_Ok|].
  split; [exact (input_df_Ok r m feature_cols Hm)|].
  apply Forall2_fmap_r, Forall_Forall2_diag, Forall_forall.
  intros col Hcol. cbn [fst snd]. split; [reflexivity|].
  rewrite fill_missing_lookup.
  destruct (user_data_encoded r m !! col); [reflexivity|].
  now rewrite decide_True by exact Hcol.
Qed.

(** X11: an evaluation fails only on a zero income, and then with
    [ZeroDivisionError]; no [row[...]] of [generate_nudges] ever raises on the
    [user_data] the script builds. *)
Theorem evaluate_fails_only_on_zero_income (r : RawInputs) (feature_cols : list string) :
  match evaluate r feature_cols with
  | Raise e => e = ZeroDivisionError /\ (income r =? 0)%float = true
  | Ok (nudges, priority) =>
      (income r =? 0)%float = false
      /\ generate_nudges (row_of r feature_cols) = Ok nudges
      /\ priority = classify_nudge_priority nudges
  end.
Proof.
  destruct (income r =? 0)%float eqn:E.
  - rewrite (evaluate_zero r feature_cols E). split; reflexivity.
  - destruct (derive_metrics_Ok r E) as (m & Hm & _).
    rewrite (evaluate_Ok r m feature_cols Hm).
    split; [reflexivity|]. split; [|reflexivity].
    unfold row_of. rewrite (user_data_Ok r m feature_cols Hm).
    rewrite (generate_nudges_complete _ (user_data_has_metrics r m feature_cols)).
    now rewrite nudges_of_user_data.
Qed.

(** X12: the overspending message of an evaluation is the high one exactly
    when the [Overspending_Alert] flag of the block is true, and then the
    priority is High. *)
Theorem overspending_alert_gives_High (r : RawInputs) (feature_cols : list string) :
  (income r =? 0)%float = false ->
  exists (m : DerivedMetrics) (nudges : list string) (priority : string),
    derive_metrics r = Ok m
    /\ evaluate r feature_cols = Ok (nudges, priority)
    /\ (In msg_overspending_high nudges <-> overspending_alert m = true)
    /\ (overspending_alert m = true -> priority = "High").
Proof.
  intros H. destruct (derive_metrics_Ok r H) as (m & Hm & _ & _ & Hoa).
  exists m. do 2 eexists. split; [exact Hm|].
  split; [exact (evaluate_Ok r m feature_cols Hm)|].
  destruct (nudges_of_members (user_data_encoded r m)) as (H1 & _).
  assert (exceeds (user_data_encoded r m) "Disposable_Utilization" 1.0
          = overspending_alert m) as Hex.
  { rewrite Hoa. vm_compute. reflexivity. }
  rewrite Hex in H1. split; [exact H1|].
  intros Htrue. apply H1, present_In in Htrue.
  rewrite (classify_on_rule_messages _ (nudges_of_known _)), Htrue. reflexivity.
Qed.

(** X13: the profile text is the fallback "N/A" exactly for the cluster ids
    other than 0, 1 and 2, and the three ids have three different texts. *)
Theorem profile_insight_fallback (cluster : Z) :
  (profile_insight cluster = "N/A" <-> ~ (0 <= cluster <= 2)%Z)
  /\ (forall other : Z,
        (0 <= cluster <= 2)%Z -> (0 <= other <= 2)%Z ->
        profile_insight cluster = profile_insight other -> cluster = other).
Proof.
  assert (forall c : Z,
            (c = 0 \/ c = 1 \/ c = 2)%Z
            \/ (~ (0 <= c <= 2)%Z /\ profile_insight c = "N/A")) as Hcases.
  { intros c. destruct (decide (0 <= c <= 2)%Z) as [Hin|Hout]; [left; lia|].
    right. split; [exact Hout|].
    unfold profile_insight, profile_map.
    rewrite !lookup_insert_ne, lookup_empty by lia. reflexivity. }
  split.
  - destruct (Hcases cluster) as [ [ -> | [ -> | -> ] ] | [Hout Hna] ].
    1-3: split; [vm_compute; discriminate | lia].
    split; [intros _; exact Hout | intros _; exact Hna].
  - intros other Hc Ho.
    destruct (Hcases cluster) as [ [ -> | [ -> | -> ] ] | [Hout _] ]; [| | |lia];
      (destruct (Hcases other) as [ [ -> | [ -> | -> ] ] | [Hout _] ]; [| | |lia]);
      vm_compute; intros E; first [reflexivity | discriminate E].
Qed.

(** ** A form without expenses *)

Section NoExpenses.

(** Zero divided by a positive float is zero. *)
Lemma zero_div_positive (y : float) : (0 <? y)%float = true -> (0 / y)%float = 0%float.
Proof.
  intros H. apply Prim2SF_inj.
  rewrite FloatAxioms.div_spec. rewrite FloatAxioms.ltb_spec in H.
  change (Prim2SF 0) with (S754_zero false) in *.
  destruct (Prim2SF y) as [s|s| |s m e]; try destruct s; try discriminate H;
    reflexivity.
Qed.

(** The variables of the block, field by field, when the income is not zero. *)
Lemma derive_metrics_fields (r : RawInputs) :
  (income r =? 0)%float = false ->
  derive_metrics r =
    Ok {| total_expenses :=
            (Py.sum py (values (fixed r)) + Py.sum py (values (essential r))
             + Py.sum py (values (discretionary r)))%float;
          discretionary_spend := Py.sum py (values (discretionary r));
          discretionary_to_income :=
            (Py.sum py (values (discretionary r)) / income r)%float;
          disposable_utilization :=
            ((Py.sum py (values (fixed r)) + Py.sum py (values (essential r))
              + Py.sum py (values (discretionary r))) / income r)%float;
          savings_vs_desired :=
            ((actual_savings r - desired_savings r) / income r)%float;
          rent_to_income := (rent r / income r)%float;
          loan_to_income := (loan_repay r / income r)%float;
          overspending_alert :=
            (1.0 <? (Py.sum py (values (fixed r)) + Py.sum py (values (essential r))
                     + Py.sum py (values (discretionary r))) / income r)%float;
          savings_rate := (actual_savings r / income r)%float |}.
Proof.
  intros H. unfold derive_metrics, float_div. rewrite H. reflexivity.
Qed.

End NoExpenses.

(** X14: with a positive income and all eleven expense amounts at 0, only the
    savings rule can fire: the result is the high savings message with
    priority High when (actual - desired) / income < -0.1, else the medium
    savings message with priority Medium when it is < -0.05, else no nudge
    and priority None.  The priority is never Low. *)
Theorem no_expenses_only_savings (r : RawInputs) (feature_cols : list string) :
  (0 <? income r)%float = true ->
  Forall (fun x => x = 0%float) (expense_amounts r) ->
  evaluate r feature_cols =
    Ok (if ((actual_savings r - desired_savings r) / income r <? -0.1)%float
        then ([msg_savings_high], "High")
        else if ((actual_savings r - desired_savings r) / income r <? -0.05)%float
             then ([msg_savings_medium], "Medium")
             else ([], "None")).
Proof.
  intros Hpos Hzero.
  pose proof (positive_income_nonzero r Hpos) as Hnz.
  rewrite (evaluate_Ok r _ feature_cols (derive_metrics_fields r Hnz)).
  unfold expense_amounts in Hzero.
  cbn [fixed essential discretionary values map app snd] in Hzero.
  repeat match goal with
         | H : Forall _ (_ :: _) |- _ => apply Forall_cons in H; destruct H as [? H]
         end.
  unfold nudges_of, exceeds, falls_below.
  match goal with
  | |- context [user_data_encoded r ?m] =>
      replace (user_data_encoded r m !! "Disposable_Utilization")
        with (Some (VFloat (disposable_utilization m))) by (vm_compute; reflexivity);
      replace (user_data_encoded r m !! "Savings_vs_Desired")
        with (Some (VFloat (savings_vs_desired m))) by (vm_compute; reflexivity);
      replace (user_data_encoded r m !! "Discretionary_to_Income")
        with (Some (VFloat (discretionary_to_income m))) by (vm_compute; reflexivity);
      replace (user_data_encoded r m !! "Rent_to_Income")
        with (Some (VFloat (rent_to_income m))) by (vm_compute; reflexivity);
      replace (user_data_encoded r m !! "Loan_to_Income")
        with (Some (VFloat (loan_to_income m))) by (vm_compute; reflexivity)
  end.
  cbn [disposable_utilization savings_vs_desired discretionary_to_income
       rent_to_income loan_to_income value_gt value_lt
       fixed essential discretionary values map snd].
  repeat match goal with
         | E : _ = 0%float |- _ => rewrite E; clear E
         end.
  assert (Py.sum py [0; 0; 0] + Py.sum py [0; 0; 0; 0; 0] + Py.sum py [0; 0; 0]
          = 0)%float as -> by (destruct py; reflexivity).
  assert (Py.sum py [0; 0; 0] = 0)%float as -> by (destruct py; reflexivity).
  rewrite (zero_div_positive _ Hpos).
  generalize ((actual_savings r - desired_savings r) / income r)%float. intros gap.
  change (1 <? 0)%float with false. change (0.85 <? 0)%float with false.
  change (0.35 <? 0)%float with false. change (0.25 <? 0)%float with false.
  change (0.4 <? 0)%float with false. change (0.3 <? 0)%float with false.
  cbn [two_tier one_tier app].
  destruct (gap <? -0.1)%float; [vm_compute; reflexivity|].
  destruct (gap <? -0.05)%float; vm_compute; reflexivity.
Qed.

(** ** The form and the evaluation *)

Section Form.

(** A float of at least 1000 is not zero. *)
Lemma at_least_1000_nonzero (x : float) :
  (1000 <=? x)%float = true -> (x =? 0)%float = false.
Proof.
  rewrite FloatAxioms.leb_spec, FloatAxioms.eqb_spec. unfold SFleb, SFeqb.
  change (Prim2SF 0) with (S754_zero false).
  destruct (Prim2SF x) as [s|s| |s m e]; try destruct s; try reflexivity.
  all: vm_compute; intros H; discriminate H.
Qed.

(** The block sees the form through its finances only. *)
Lemma derive_metrics_same_finances (r r' : RawInputs) :
  same_finances r r' -> derive_metrics r = derive_metrics r'.
Proof.
  intros (Hi & Hd & Ha & Hf & He & Hdi).
  assert (rent r = rent r' /\ loan_repay r = loan_repay r') as [Hr Hl].
  { unfold fixed in Hf. injection Hf as -> -> _. split; reflexivity. }
  unfold derive_metrics. rewrite Hi, Hd, Ha, Hf, He, Hdi, Hr, Hl. reflexivity.
Qed.

End Form.

(** X15: for an income in the range the form allows (1000 to 100000), the
    evaluation never raises: it returns a nudge list and its priority. *)
Theorem form_income_never_fails (r : RawInputs) (feature_cols : list string) :
  income_in_form_range r = true ->
  exists (nudges : list string) (priority : string),
    evaluate r feature_cols = Ok (nudges, priority)
    /\ priority = classify_nudge_priority nudges.
Proof.
  unfold income_in_form_range. intros [Hlow _]%andb_prop.
  apply at_least_1000_nonzero in Hlow.
  destruct (derive_metrics_Ok r Hlow) as (m & Hm & _).
  do 2 eexists. split; [exact (evaluate_Ok r m feature_cols Hm) | reflexivity].
Qed.

(** X16: the nudges and the priority depend on the income, the two savings
    amounts and the eleven expense amounts only: forms that agree on these
    get the same result, whatever their age, dependents, occupation and city
    tier, and whatever the two schemas. *)
Theorem evaluate_ignores_demographics
    (r r' : RawInputs) (feature_cols feature_cols' : list string) :
  same_finances r r' ->
  evaluate r feature_cols = evaluate r' feature_cols'.
Proof.
  intros Hsame. pose proof (derive_metrics_same_finances r r' Hsame) as Hd.
  destruct Hsame as (Hi & _).
  destruct (income r =? 0)%float eqn:E.
  - rewrite (evaluate_zero r _ E). rewrite Hi in E. now rewrite (evaluate_zero r' _ E).
  - destruct (derive_metrics_Ok r E) as (m & Hm & _).
    rewrite (evaluate_Ok r m _ Hm). rewrite Hd in Hm.
    rewrite (evaluate_Ok r' m _ Hm).
    assert (nudges_of (user_data_encoded r m) = nudges_of (user_data_encoded r' m))
      as ->; [|reflexivity].
    destruct (user_data_ratios r m []) as (G1 & G2 & G3 & G4 & G5).
    destruct (user_data_ratios r' m []) as (K1 & K2 & K3 & K4 & K5).
    cbn [fill_missing fold_left] in *.
    unfold nudges_of, exceeds, falls_below.
    rewrite G1, G2, G3, G4, G5, K1, K2, K3, K4, K5. reflexivity.
Qed.

End Interpreter.

(** ** Sample evaluations, on CPython 3.12 and later unless both are named *)

(** Income 5000, no expense, savings above the goal: no nudge, priority None. *)
Example scenario_idle :
  evaluate Py.Compensated raw_idle sample_schema = Ok ([], "None").
Proof. vm_compute. reflexivity. Qed.

(** Income 2000 with rent 900, loan 700 and eating out 800: all five
    categories fire at their high tier, priority High. *)
Example scenario_overspent :
  evaluate Py.Compensated raw_overspent sample_schema
  = Ok ([msg_overspending_high; msg_savings_high; msg_discretionary_high;
         msg_rent_high; msg_loan], "High").
Proof. vm_compute. reflexivity. Qed.

Lemma classify_decision_sequence_witness :
  classify_nudge_priority
    [msg_overspending_high; msg_savings_high; msg_discretionary_high;
     msg_rent_high; msg_loan] = "High"
  <-> In msg_overspending_high
        [msg_overspending_high; msg_savings_high; msg_discretionary_high;
         msg_rent_high; msg_loan]
      \/ In msg_savings_high
           [msg_overspending_high; msg_savings_high; msg_discretionary_high;
            msg_rent_high; msg_loan]
      \/ In msg_rent_high
           [msg_overspending_high; msg_savings_high; msg_discretionary_high;
            msg_rent_high; msg_loan].
Proof.
  apply (classify_decision_sequence
           (row_of Py.Compensated raw_overspent sample_schema)).
  vm_compute. reflexivity.
Defined.

Lemma one_message_per_category_witness :
  length [msg_discretionary_medium] <= 5
  /\ (In msg_discretionary_medium [msg_discretionary_medium] <->
        exceeds (row_of Py.Compensated raw_discretionary sample_schema)
          "Discretionary_to_Income" 0.35 = false
        /\ exceeds (row_of Py.Compensated raw_discretionary sample_schema)
             "Discretionary_to_Income" 0.25 = true).
Proof.
  assert (generate_nudges (row_of Py.Compensated raw_discretionary sample_schema)
          = Ok [msg_discretionary_medium]) as H by (vm_compute; reflexivity).
  pose proof (one_message_per_category _ _ H) as T.
  split; [apply T | apply T].
Defined.

Lemma generate_nudges_reads_five_ratios_witness :
  generate_nudges (row_of Py.Compensated raw_loan sample_schema)
  = generate_nudges
      (<["Overspending_Alert" := VBool true]>
         (<["Income" := VFloat 1]> (delete "Rent" (row_of Py.Compensated raw_loan []))))
  /\ row_of Py.Compensated raw_loan sample_schema !! "Credit_Score" = Some (VInt 0)
  /\ (<["Overspending_Alert" := VBool true]>
        (<["Income" := VFloat 1]> (delete "Rent" (row_of Py.Compensated raw_loan []))))
       !! "Credit_Score" = None.
Proof.
  split; [|split; vm_compute; reflexivity].
  apply generate_nudges_reads_five_ratios.
  intros key Hkey. cbn in Hkey.
  repeat (destruct Hkey as [<-|Hkey]; [vm_compute; reflexivity|]).
  destruct Hkey.
Defined.

Lemma loan_burden_alone_is_Low_witness :
  nudge_priority (row_of Py.Compensated raw_loan sample_schema)
  = Ok ([msg_loan], "Low").
Proof.
  apply loan_burden_alone_is_Low; try (vm_compute; reflexivity).
  repeat constructor; vm_compute; eexists; reflexivity.
Defined.

(** C1, as stated: Medium.  The form with discretionary spending at 0.30 of
    the income and nothing else is classified Low, on either interpreter. *)
Lemma discretionary_medium_alone_not_Medium :
  Forall (fun py =>
            let row := row_of py raw_discretionary sample_schema in
            row !! "Discretionary_to_Income" = Some (VFloat 0.3)
            /\ exceeds row "Discretionary_to_Income" 0.25 = true
            /\ falls_below row "Discretionary_to_Income" 0.35 = true
            /\ overspending_fires row = false
            /\ savings_gap_fires row = false
            /\ rent_burden_fires row = false
            /\ loan_burden_fires row = false
            /\ evaluate py raw_discretionary sample_schema
               = Ok ([msg_discretionary_medium], "Low"))
    [Py.PlainFold; Py.Compensated]
  /\ "Low" <> "Medium".
Proof.
  split; [|discriminate].
  repeat constructor; vm_compute; reflexivity.
Qed.

Lemma discretionary_medium_alone_is_Low_witness :
  nudge_priority (row_of Py.Compensated raw_discretionary sample_schema)
  = Ok ([msg_discretionary_medium], "Low").
Proof.
  apply discretionary_medium_alone_is_Low; try (vm_compute; reflexivity).
  repeat constructor; vm_compute; eexists; reflexivity.
Defined.

(** C3, as stated: a [DomainError "invalid income"] for every income [<= 0].
    With income -1000 the deriver returns (here the loan ratio -2); with
    income 0 it raises [ZeroDivisionError], which is not that error; on
    either interpreter. *)
Lemma nonpositive_income_no_DomainError :
  Forall (fun py =>
            (income (with_income (-1000) raw_loan) <=? 0)%float = true
            /\ (exists m : DerivedMetrics,
                  derive_metrics py (with_income (-1000) raw_loan) = Ok m
                  /\ loan_to_income m = (-2)%float)
            /\ (income (with_income 0 raw_loan) <=? 0)%float = true
            /\ derive_metrics py (with_income 0 raw_loan) = Raise ZeroDivisionError)
    [Py.PlainFold; Py.Compensated]
  /\ ZeroDivisionError <> Exn "DomainError" "invalid income".
Proof.
  split; [|discriminate].
  repeat constructor; try (vm_compute; reflexivity);
    eexists; split; vm_compute; reflexivity.
Qed.

Lemma derive_metrics_failure_modes_witness :
  derive_metrics Py.Compensated (with_income 0 raw_loan) = Raise ZeroDivisionError
  /\ (exists m : DerivedMetrics,
        derive_metrics Py.Compensated (with_income (-1000) raw_loan) = Ok m)
  /\ (exists m : DerivedMetrics, derive_metrics Py.Compensated raw_loan = Ok m).
Proof.
  split; [|split].
  - apply (proj1 (derive_metrics_failure_modes Py.Compensated (with_income 0 raw_loan))).
    vm_compute. reflexivity.
  - apply (proj1 (proj2 (derive_metrics_failure_modes Py.Compensated
                           (with_income (-1000) raw_loan)))).
    vm_compute. reflexivity.
  - apply (proj2 (proj2 (derive_metrics_failure_modes Py.Compensated raw_loan))).
    vm_compute. reflexivity.
Defined.

Lemma overspending_alert_iff_witness :
  exists (m : DerivedMetrics) (d : gmap string value),
    derive_metrics Py.Compensated raw_overspent = Ok m
    /\ user_data Py.Compensated raw_overspent sample_schema = Ok d
    /\ disposable_utilization m = (total_expenses m / income raw_overspent)%float
    /\ d !! "Disposable_Utilization" = Some (VFloat (disposable_utilization m))
    /\ d !! "Overspending_Alert" = Some (VBool (overspending_alert m))
    /\ (overspending_alert m = true <-> (1.0 <? disposable_utilization m)%float = true).
Proof.
  apply overspending_alert_iff. vm_compute. reflexivity.
Defined.

(** C6, as stated: the sum of nine amounts.  There are eleven: with each
    amount equal to 1 the total is 11, and no nine of the amounts, in any
    order, add up to it; on either interpreter. *)
Lemma total_expenses_not_sum_of_nine :
  length (expense_amounts raw_ones) = 11
  /\ Forall (fun py =>
               (exists m : DerivedMetrics,
                  derive_metrics py raw_ones = Ok m /\ total_expenses m = 11%float)
               /\ (forall nine : list float,
                     nine ⊆+ expense_amounts raw_ones -> length nine = 9 ->
                     (Py.sum py nine =? 11)%float = false))
       [Py.PlainFold; Py.Compensated].
Proof.
  split; [reflexivity|].
  assert (forall nine : list float,
            nine ⊆+ expense_amounts raw_ones -> length nine = 9 ->
            nine = [1; 1; 1; 1; 1; 1; 1; 1; 1]%float) as Hnine.
  { intros nine Hsub Hlen.
    assert (Forall (fun x => x = 1%float) nine) as Hall.
    { apply Forall_forall. intros x Hx.
      apply (elem_of_submseteq _ _ _ Hx) in Hsub.
      apply list_elem_of_In in Hsub. cbn in Hsub.
      repeat (destruct Hsub as [<-|Hsub]; [reflexivity|]). destruct Hsub. }
    do 9 (destruct nine as [|? nine]; [discriminate Hlen|]).
    destruct nine; [|discriminate Hlen].
    repeat match goal with
           | H : Forall _ (_ :: _) |- _ => apply Forall_cons in H; destruct H as [-> H]
           end.
    reflexivity. }
  repeat constructor; try (eexists; split; vm_compute; reflexivity);
    intros nine Hsub Hlen; rewrite (Hnine nine Hsub Hlen); vm_compute; reflexivity.
Qed.

Lemma total_expenses_is_sum_of_eleven_witness :
  (exists (m : DerivedMetrics) (d : gmap string value),
     derive_metrics Py.Compensated raw_rounding = Ok m
     /\ user_data Py.Compensated raw_rounding sample_schema = Ok d
     /\ total_expenses m = 1000.0000000000001%float
     /\ d !! "Total_Expenses" = Some (VFloat 1000.0000000000001))
  /\ (exists (m : DerivedMetrics) (d : gmap string value),
        derive_metrics Py.PlainFold raw_rounding = Ok m
        /\ user_data Py.PlainFold raw_rounding sample_schema = Ok d
        /\ total_expenses m = 1000%float
        /\ d !! "Total_Expenses" = Some (VFloat 1000)).
Proof.
  split.
  - destruct (total_expenses_is_sum_of_eleven Py.Compensated raw_rounding sample_schema)
      as (m & d & Hm & Hd & _ & Ht & Hl & _); [vm_compute; reflexivity|].
    exists m, d. rewrite Ht in Hl. rewrite Ht.
    split; [exact Hm|]. split; [exact Hd|]. split; [vm_compute; reflexivity|exact Hl].
  - destruct (total_expenses_is_sum_of_eleven Py.PlainFold raw_rounding sample_schema)
      as (m & d & Hm & Hd & _ & Ht & Hl & _); [vm_compute; reflexivity|].
    exists m, d. rewrite Ht in Hl. rewrite Ht.
    split; [exact Hm|]. split; [exact Hd|]. split; [vm_compute; reflexivity|exact Hl].
Defined.

Lemma feature_vector_follows_schema_witness :
  input_df Py.Compensated raw_loan sample_schema
  = Ok [("Income", VFloat 5000); ("Age", VInt 41); ("Total_Expenses", VFloat 2000);
        ("Rent_to_Income", VFloat 0); ("Overspending_Alert", VBool false);
        ("Occupation_Student", VInt 0); ("City_Tier_Tier_2", VInt 1);
        ("Eating_Out", VFloat 0); ("Credit_Score", VInt 0); ("Age", VInt 41)]
  /\ exists fv : list (string * value),
       input_df Py.Compensated raw_loan sample_schema = Ok fv
       /\ map fst fv = sample_schema
       /\ length fv = length sample_schema
       /\ Forall (fun cv => ~ In cv.1 populated_keys -> cv.2 = VInt 0) fv.
Proof.
  split; [vm_compute; reflexivity|].
  apply feature_vector_follows_schema. vm_compute. reflexivity.
Defined.

Lemma fill_missing_adds_schema_witness :
  fill_missing sample_schema (row_of Py.Compensated raw_loan []) !! "Income"
  = Some (VFloat 5000)
  /\ fill_missing sample_schema (row_of Py.Compensated raw_loan []) !! "Credit_Score"
     = Some (VInt 0).
Proof.
  split.
  - apply (proj1 (proj2 (fill_missing_adds_schema sample_schema
                           (row_of Py.Compensated raw_loan [])))).
    vm_compute. reflexivity.
  - apply (proj1 (proj2 (proj2 (fill_missing_adds_schema sample_schema
                                 (row_of Py.Compensated raw_loan []))))).
    + vm_compute. reflexivity.
    + cbn. tauto.
Defined.

Lemma one_hot_columns_witness :
  exists d : gmap string value,
    user_data Py.Compensated raw_overspent sample_schema = Ok d
    /\ d !! "Occupation_Student" = Some (VInt 1)
    /\ d !! "Occupation_Retired" = Some (VInt 0)
    /\ d !! "City_Tier_Tier_3" = Some (VInt 1).
Proof.
  destruct (one_hot_columns Py.Compensated raw_overspent sample_schema)
    as (d & Hd & Ho & Hc & _); [vm_compute; reflexivity|].
  exists d. split; [exact Hd|].
  rewrite Forall_forall in Ho, Hc. repeat split.
  - apply (Ho "Student"), list_elem_of_In. cbn. tauto.
  - apply (Ho "Retired"), list_elem_of_In. cbn. tauto.
  - apply (Hc "Tier_3"), list_elem_of_In. cbn. tauto.
Defined.

Lemma user_data_holds_display_witness :
  exists (m : DerivedMetrics) (d : gmap string value),
    derive_metrics Py.Compensated raw_loan = Ok m
    /\ user_data Py.Compensated raw_loan ["Income"; "Rent"; "Credit_Score"] = Ok d
    /\ d !! "Income" = Some (VFloat 5000)
    /\ d !! "Loan_Repayment" = Some (VFloat 2000).
Proof.
  destruct (user_data_holds_display Py.Compensated raw_loan
              ["Income"; "Rent"; "Credit_Score"])
    as (m & d & Hm & Hd & Hall & _); [vm_compute; reflexivity|].
  exists m, d. split; [exact Hm|]. split; [exact Hd|].
  rewrite Forall_forall in Hall. split.
  - apply (Hall ("Income", VFloat 5000)), list_elem_of_In. cbn. tauto.
  - apply (Hall ("Loan_Repayment", VFloat 2000)), list_elem_of_In. cbn. tauto.
Defined.

Lemma input_df_projects_user_data_witness :
  exists (d : gmap string value) (fv : list (string * value)),
    user_data Py.Compensated raw_loan sample_schema = Ok d
    /\ input_df Py.Compensated raw_loan sample_schema = Ok fv
    /\ Forall2 (fun col cv => cv.1 = col /\ d !! col = Some cv.2) sample_schema fv.
Proof.
  apply input_df_projects_user_data. vm_compute. reflexivity.
Defined.

Lemma overspending_alert_gives_High_witness :
  exists (m : DerivedMetrics) (nudges : list string) (priority : string),
    derive_metrics Py.Compensated raw_overspent = Ok m
    /\ evaluate Py.Compensated raw_overspent sample_schema = Ok (nudges, priority)
    /\ (In msg_overspending_high nudges <-> overspending_alert m = true)
    /\ (overspending_alert m = true -> priority = "High").
Proof.
  apply overspending_alert_gives_High. vm_compute. reflexivity.
Defined.

Lemma no_expenses_only_savings_witness :
  evaluate Py.Compensated raw_idle sample_schema = Ok ([], "None").
Proof.
  rewrite (no_expenses_only_savings Py.Compensated raw_idle sample_schema).
  - vm_compute. reflexivity.
  - vm_compute. reflexivity.
  - repeat constructor.
Defined.

Lemma form_income_never_fails_witness :
  exists (nudges : list string) (priority : string),
    evaluate Py.Compensated raw_overspent sample_schema = Ok (nudges, priority)
    /\ priority = classify_nudge_priority nudges.
Proof.
  apply form_income_never_fails. vm_compute. reflexivity.
Defined.

Lemma evaluate_ignores_demographics_witness :
  evaluate Py.Compensated raw_loan sample_schema
  = evaluate Py.Compensated
      {| income := 5000; age := 64; dependents := 7;
         occupation := "Retired"; city_tier := "Tier_3";
         desired_savings := 1000; actual_savings := 2000;
         rent := 0; loan_repay := 2000; insurance := 0;
         groceries := 0; transport := 0; utilities := 0; healthcare := 0;
         education := 0; eating_out := 0; entertainment := 0; misc := 0 |}
      [].
Proof.
  apply evaluate_ignores_demographics. repeat split.
Defined.
